(** * Gunj operator report generators

  A shallow embedding of the two report scripts of the repository,

    - [scripts/generate-maturity-report.py]     (module [Maturity])
    - [scripts/generate-security-dashboard.py]  (module [Security])

  together with the fragment of Python they run on (module [Py]):
  exceptions, integer and binary64 arithmetic, string helpers and
  [str.format].  Dictionaries with a fixed set of keys are records,
  [dict.get] with a default is an [option] field, the severity
  counters are a [gmap], and code that can raise returns a [result]. *)

From Stdlib Require Import ZArith List String Ascii Lia Bool SpecFloat DecimalString.
From stdpp Require Import gmap strings.

#[local] Open Scope Z_scope.

(** ** The Python fragment *)

Module Py.

(** Exception classes that the two scripts can meet.  The last
    constructor is not a Python class: it marks a construct of the
    [str.format] mini-language that this embedding does not interpret
    (conversions, non-empty format specifications, attribute and index
    lookups on a field).  No template of the repository reaches it. *)
Inductive exn_class :=
| KeyError | IndexError | ValueError | TypeError
| OverflowError | ZeroDivisionError
| JSONDecodeError | UnicodeDecodeError
| OSError | FileNotFoundError | PermissionError
| KeyboardInterrupt | SystemExit
| OutsideModel.

Record exn := Exn { exn_cls : exn_class; exn_arg : string }.

(** [except Exception] catches every class but the two that derive
    from [BaseException] directly. *)
Definition is_Exception (c : exn_class) : bool :=
  match c with
  | KeyboardInterrupt | SystemExit => false
  | _ => true
  end.

(** [str(e)] as interpolated by [print(f"... {e}")]. *)
Definition str_exn (e : exn) : string := exn_arg e.

Inductive result (A : Type) :=
| Ok (a : A)
| Raise (e : exn).
Arguments Ok {A} a.
Arguments Raise {A} e.

Definition bind {A B} (r : result A) (k : A -> result B) : result B :=
  match r with
  | Ok a => k a
  | Raise e => Raise e
  end.

Definition raise {A} (c : exn_class) (msg : string) : result A :=
  Raise (Exn c msg).

#[export] Instance result_ret : MRet result := fun A a => Ok a.
#[export] Instance result_bind : MBind result := fun A B k r => bind r k.

Definition returned {A} (r : result A) : bool :=
  match r with Ok _ => true | Raise _ => false end.

(** *** Strings *)

Definition dq : string := String (ascii_of_nat 34) EmptyString.
Definition nl : string := String (ascii_of_nat 10) EmptyString.

(** [str(n)] for an [int]. *)
Definition str_of_int (z : Z) : string :=
  NilZero.string_of_int (Z.to_int z).

Definition ascii_lower (c : ascii) : ascii :=
  let n := nat_of_ascii c in
  if ((65 <=? n) && (n <=? 90))%nat then ascii_of_nat (n + 32) else c.

(** [s.lower()], on the ASCII letters. *)
Fixpoint lower (s : string) : string :=
  match s with
  | EmptyString => EmptyString
  | String c s' => String (ascii_lower c) (lower s')
  end.

(** [s.replace(old, new)] for one-character [old] and [new]. *)
Fixpoint replace_char (old new : ascii) (s : string) : string :=
  match s with
  | EmptyString => EmptyString
  | String c s' =>
      String (if Ascii.eqb c old then new else c) (replace_char old new s')
  end.

(** [sep.join(l)]. *)
Definition join (sep : string) (l : list string) : string :=
  String.concat sep l.

(** *** Files

    A path that exists holds text that [json.load] decodes to a
    document, or text that it rejects with a message. *)

Inductive file (A : Type) :=
| JSON (doc : A)
| NotJSON (msg : string).
Arguments JSON {A} doc.
Arguments NotJSON {A} msg.

Definition json_load {A} (f : file A) : result A :=
  match f with
  | JSON doc => Ok doc
  | NotJSON msg => raise JSONDecodeError msg
  end.

(** *** binary64 floats

    Python's [float] is IEEE 754 binary64; [SpecFloat] gives its
    operations with round-to-nearest-even. *)

Definition prec : Z := 53.
Definition emax : Z := 1024.
Abbreviation float := spec_float.

Definition is_infinite (x : float) : bool :=
  match x with S754_infinity _ => true | _ => false end.

(** An integer as an exact (unrounded) operand. *)
Definition exact_int (z : Z) : float :=
  match z with
  | Z0 => S754_zero false
  | Zpos p => S754_finite false p 0
  | Zneg p => S754_finite true p 0
  end.

(** [float(n)]: the nearest double, or OverflowError. *)
Definition float_of_int (z : Z) : result float :=
  let x := binary_normalize prec emax z 0 false in
  if is_infinite x
  then raise OverflowError "int too large to convert to float"
  else Ok x.

(** [a / b] on two [int]s: the correctly rounded quotient. *)
Definition int_truediv (a b : Z) : result float :=
  if b =? 0 then raise ZeroDivisionError "division by zero"
  else
    let q := SFdiv prec emax (exact_int a) (exact_int b) in
    if is_infinite q
    then raise OverflowError "integer division result too large for a float"
    else Ok q.

(** [x * n] for a [float] and an [int]: the int is converted first;
    the product itself never raises. *)
Definition float_mul_int (x : float) (n : Z) : result float :=
  bind (float_of_int n) (fun y => Ok (SFmul prec emax x y)).

(** The decimal literal [n/10^k] written in the source, e.g. [84.3]:
    the double nearest to the exact quotient. *)
Definition float_literal (num den : Z) : float :=
  SFdiv prec emax (exact_int num) (exact_int den).

(** Magnitude [m * 2^e] rounded to an integer, ties to even. *)
Definition round_half_even (m : positive) (e : Z) : Z :=
  match e with
  | Zneg k =>
      let d := Z.pow_pos 2 k in
      let q := Z.pos m / d in
      let r := Z.pos m mod d in
      match 2 * r ?= d with
      | Lt => q
      | Gt => q + 1
      | Eq => if Z.even q then q else q + 1
      end
  | _ => Z.pos m * 2 ^ e
  end.

(** Magnitude [m * 2^e] truncated to an integer. *)
Definition truncate (m : positive) (e : Z) : Z :=
  match e with
  | Zneg k => Z.pos m / Z.pow_pos 2 k
  | _ => Z.pos m * 2 ^ e
  end.

(** [round(x)] with one argument: an [int]. *)
Definition round (x : float) : result Z :=
  match x with
  | S754_nan => raise ValueError "cannot convert float NaN to integer"
  | S754_infinity _ =>
      raise OverflowError "cannot convert float infinity to integer"
  | S754_zero _ => Ok 0
  | S754_finite s m e =>
      Ok (if s then - round_half_even m e else round_half_even m e)
  end.

(** [int(x)] for a [float]. *)
Definition int_of_float (x : float) : result Z :=
  match x with
  | S754_nan => raise ValueError "cannot convert float NaN to integer"
  | S754_infinity _ =>
      raise OverflowError "cannot convert float infinity to integer"
  | S754_zero _ => Ok 0
  | S754_finite s m e => Ok (if s then - truncate m e else truncate m e)
  end.

(** [format(x, ".0f")]: the sign bit, then the magnitude rounded to
    an integer with ties to even. *)
Definition format_0f (x : float) : string :=
  match x with
  | S754_nan => "nan"
  | S754_infinity s => if s then "-inf" else "inf"
  | S754_zero s => if s then "-0" else "0"
  | S754_finite s m e =>
      (if s then "-" else "") +:+ str_of_int (round_half_even m e)
  end.

(** *** [str.format]

    [template.format] as the two scripts call it: with keyword
    arguments only, each already converted with [str].  The template
    is read left to right; literal text is copied, a doubled brace
    stands for one brace, and a replacement field is parsed, looked
    up and substituted.  The first failure is raised. *)

Definition kwargs := list (string * string).

Fixpoint kw_lookup (k : string) (kw : kwargs) : option string :=
  match kw with
  | [] => None
  | (k', v) :: kw' => if String.eqb k k' then Some v else kw_lookup k kw'
  end.

Definition is_brace (c : ascii) : bool :=
  Ascii.eqb c "{" || Ascii.eqb c "}".

(** The literal text up to the first brace, and what follows it. *)
Fixpoint span_literal (s : string) : string * string :=
  match s with
  | EmptyString => (EmptyString, EmptyString)
  | String c s' =>
      if is_brace c then (EmptyString, s)
      else let (l, r) := span_literal s' in (String c l, r)
  end.

Record field := Field
  { field_name : string;
    conversion : option ascii;
    format_spec : string }.

(** The field name runs to the first [}], [:] or [!] outside square
    brackets; the result is the name, the terminator and the rest. *)
Fixpoint scan_field_name (in_bracket : bool) (s : string)
  : result (string * ascii * string) :=
  match s with
  | EmptyString => raise ValueError "expected '}' before end of string"
  | String c s' =>
      let continue (b : bool) :=
        bind (scan_field_name b s')
             (fun '(n, t, r) => Ok (String c n, t, r)) in
      if in_bracket then continue (negb (Ascii.eqb c "]"))
      else if Ascii.eqb c "{"
      then raise ValueError "unexpected '{' in field name"
      else if Ascii.eqb c "[" then continue true
      else if Ascii.eqb c "}" || Ascii.eqb c ":" || Ascii.eqb c "!"
      then Ok (EmptyString, c, s')
      else continue false
  end.

(** The format specification runs to the brace that closes the
    field, nested braces being counted. *)
Fixpoint scan_format_spec (depth : nat) (s : string)
  : result (string * string) :=
  match s with
  | EmptyString => raise ValueError "unmatched '{' in format spec"
  | String c s' =>
      let continue (d : nat) :=
        bind (scan_format_spec d s')
             (fun '(spec, r) => Ok (String c spec, r)) in
      if Ascii.eqb c "{" then continue (S depth)
      else if Ascii.eqb c "}" then
        match depth with
        | O => Ok (EmptyString, s')
        | S d => continue d
        end
      else continue depth
  end.

(** A replacement field, read from just after its opening brace. *)
Definition parse_field (s : string) : result (field * string) :=
  bind (scan_field_name false s) (fun '(name, t, r) =>
    if Ascii.eqb t "}" then Ok (Field name None EmptyString, r)
    else if Ascii.eqb t "!" then
      match r with
      | EmptyString =>
          raise ValueError
            "end of string while looking for conversion specifier"
      | String conv EmptyString =>
          bind (scan_format_spec 0 EmptyString)
               (fun '(spec, r') => Ok (Field name (Some conv) spec, r'))
      | String conv (String c r') =>
          if Ascii.eqb c "}" then Ok (Field name (Some conv) EmptyString, r')
          else if Ascii.eqb c ":" then
            bind (scan_format_spec 0 r')
                 (fun '(spec, r'') => Ok (Field name (Some conv) spec, r''))
          else raise ValueError "expected ':' after conversion specifier"
      end
    else
      bind (scan_format_spec 0 r)
           (fun '(spec, r') => Ok (Field name None spec, r'))).

(** The first component of a field name: up to the first [.] or [[]. *)
Fixpoint split_first (s : string) : string * string :=
  match s with
  | EmptyString => (EmptyString, EmptyString)
  | String c s' =>
      if Ascii.eqb c "." || Ascii.eqb c "[" then (EmptyString, s)
      else let (a, b) := split_first s' in (String c a, b)
  end.

Definition digit_value (c : ascii) : option Z :=
  let n := nat_of_ascii c in
  if ((48 <=? n) && (n <=? 57))%nat then Some (Z.of_nat n - 48) else None.

(** The value of a non-empty string of decimal digits. *)
Fixpoint decimal (acc : Z) (s : string) : option Z :=
  match s with
  | EmptyString => Some acc
  | String c s' =>
      match digit_value c with
      | Some d => decimal (10 * acc + d) s'
      | None => None
      end
  end.

Definition PY_SSIZE_T_MAX : Z := 2 ^ 63 - 1.

(** Look the field up and substitute it.  There are no positional
    arguments, so an empty or numeric name is out of range. *)
Definition render_field (f : field) (kw : kwargs) : result string :=
  let (first, rest) := split_first (field_name f) in
  let positional (i : Z) : result string :=
    raise IndexError
      ("Replacement index " +:+ str_of_int i +:+
       " out of range for positional args tuple") in
  match first with
  | EmptyString => positional 0
  | _ =>
      match decimal 0 first with
      | Some i =>
          if i <=? PY_SSIZE_T_MAX then positional i
          else raise ValueError "Too many decimal digits in format string"
      | None =>
          match kw_lookup first kw with
          | None => raise KeyError first
          | Some v =>
              match rest, conversion f, format_spec f with
              | EmptyString, None, EmptyString => Ok v
              | _, _, _ => raise OutsideModel (field_name f)
              end
          end
      end
  end.

(** One round of the loop per brace met; [None] when [fuel] rounds
    were not enough. *)
Fixpoint format_from (fuel : nat) (s : string) (kw : kwargs)
  : option (result string) :=
  match fuel with
  | O => None
  | S fuel' =>
      let (lit, rest) := span_literal s in
      let and_then (mid : string) (after : string) :=
        match format_from fuel' after kw with
        | None => None
        | Some (Raise e) => Some (Raise e)
        | Some (Ok out) => Some (Ok (lit +:+ mid +:+ out))
        end in
      match rest with
      | EmptyString => Some (Ok lit)
      | String c EmptyString =>
          Some (raise ValueError
            (if Ascii.eqb c "}"
             then "Single '}' encountered in format string"
             else "Single '{' encountered in format string"))
      | String c (String c' rest'' as rest') =>
          if Ascii.eqb c c' then and_then (String c EmptyString) rest''
          else if Ascii.eqb c "}"
          then Some (raise ValueError "Single '}' encountered in format string")
          else
            match parse_field rest' with
            | Raise e => Some (Raise e)
            | Ok (f, after) =>
                match render_field f kw with
                | Raise e => Some (Raise e)
                | Ok v => and_then v after
                end
            end
      end
  end.

(** Every round consumes a character, so the length of the template
    (plus one) is enough fuel: see [format_from_enough]. *)
Definition format (template : string) (kw : kwargs) : result string :=
  match format_from (S (String.length template)) template kw with
  | Some r => r
  | None => raise OutsideModel "format"
  end.

End Py.


(** ** [scripts/generate-maturity-report.py] *)

Module Maturity.
Import Py.

(** The [scores] dictionary of an assessment report: JSON integers,
    as the assessment writes them and as the default record has
    them. *)
Record Scores := mkScores
  { total : Z;
    percentage : Z;
    level1 : Z;
    level2 : Z;
    level3 : Z;
    level4 : Z;
    level5 : Z }.

(** The report dictionary, with the keys the script reads. *)
Record ReportData := mkReportData
  { timestamp : string;
    project : string;
    scores : Scores;
    maturityLevel : string }.

Record MaturityReportGenerator := mkGenerator
  { assessment_file : string;
    report_data : ReportData }.

(** The files of the working directory that hold a report. *)
Definition disk := string -> option (file ReportData).

(** [utcnow] is [datetime.datetime.utcnow().isoformat()], read from
    the clock when the file is missing. *)
Definition _load_assessment_data
    (utcnow : string) (fs : disk) (assessment_file : string)
  : result ReportData :=
  match fs assessment_file with
  | Some f => json_load f
  | None =>
      Ok {| timestamp := utcnow +:+ "Z";
            project := "gunj-operator";
            scores := {| total := 0;
                         percentage := 0;
                         level1 := 0;
                         level2 := 0;
                         level3 := 0;
                         level4 := 0;
                         level5 := 0 |};
            maturityLevel := "0 - Traditional" |}
  end.

Definition __init__ (utcnow : string) (fs : disk) (assessment_file : string)
  : result MaturityReportGenerator :=
  report_data ← _load_assessment_data utcnow fs assessment_file;
  mret {| assessment_file := assessment_file; report_data := report_data |}.

Definition html_template : string :=
  join dq ["
<!DOCTYPE html>
<html lang=" ; "en" ; ">
<head>
    <meta charset=" ; "UTF-8" ; ">
    <meta name=" ; "viewport" ; " content=" ; "width=device-width, initial-scale=1.0" ; ">
    <title>Cloud Native Maturity Report - Gunj Operator</title>
    <script src=" ; "https://cdn.jsdelivr.net/npm/chart.js" ; "></script>
    <style>
        body {
            font-family: -apple-system, BlinkMacSystemFont, 'Segoe UI', Roboto, sans-serif;
            margin: 0;
            padding: 20px;
            background-color: #f5f5f5;
        }
        .container {
            max-width: 1200px;
            margin: 0 auto;
            background-color: white;
            padding: 30px;
            border-radius: 10px;
            box-shadow: 0 2px 10px rgba(0,0,0,0.1);
        }
        h1 {
            color: #333;
            margin-bottom: 10px;
        }
        .timestamp {
            color: #666;
            font-size: 14px;
            margin-bottom: 30px;
        }
        .score-summary {
            display: grid;
            grid-template-columns: repeat(auto-fit, minmax(200px, 1fr));
            gap: 20px;
            margin-bottom: 40px;
        }
        .score-card {
            background: linear-gradient(135deg, #667eea 0%, #764ba2 100%);
            color: white;
            padding: 20px;
            border-radius: 8px;
            text-align: center;
        }
        .score-card h3 {
            margin: 0 0 10px 0;
            font-size: 16px;
            opacity: 0.9;
        }
        .score-value {
            font-size: 36px;
            font-weight: bold;
        }
        .maturity-level {
            background: #f0f0f0;
            padding: 20px;
            border-radius: 8px;
            text-align: center;
            margin-bottom: 30px;
        }
        .maturity-level h2 {
            margin: 0 0 10px 0;
            color: #333;
        }
        .current-level {
            font-size: 24px;
            color: #667eea;
            font-weight: bold;
        }
        .charts-container {
            display: grid;
            grid-template-columns: 1fr 1fr;
            gap: 30px;
            margin-bottom: 30px;
        }
        .chart-box {
            background: #f9f9f9;
            padding: 20px;
            border-radius: 8px;
        }
        .recommendations {
            background: #e8f5e9;
            padding: 20px;
            border-radius: 8px;
            border-left: 4px solid #4caf50;
        }
        .recommendations h3 {
            margin-top: 0;
            color: #2e7d32;
        }
        .recommendations ul {
            margin: 10px 0;
            padding-left: 20px;
        }
        .recommendations li {
            margin-bottom: 8px;
        }
        canvas {
            max-height: 300px;
        }
        .progress-bar {
            width: 100%;
            height: 30px;
            background-color: #e0e0e0;
            border-radius: 15px;
            overflow: hidden;
            margin: 20px 0;
        }
        .progress-fill {
            height: 100%;
            background: linear-gradient(90deg, #4caf50 0%, #8bc34a 100%);
            transition: width 0.3s ease;
            display: flex;
            align-items: center;
            justify-content: center;
            color: white;
            font-weight: bold;
        }
    </style>
</head>
<body>
    <div class=" ; "container" ; ">
        <h1>Cloud Native Maturity Assessment Report</h1>
        <div class=" ; "timestamp" ; ">Generated on: {timestamp}</div>
        
        <div class=" ; "maturity-level" ; ">
            <h2>Current Maturity Level</h2>
            <div class=" ; "current-level" ; ">{maturity_level}</div>
            <div class=" ; "progress-bar" ; ">
                <div class=" ; "progress-fill" ; " style=" ; "width: {percentage}%" ; ">{percentage}%</div>
            </div>
        </div>
        
        <div class=" ; "score-summary" ; ">
            <div class=" ; "score-card" ; ">
                <h3>Total Score</h3>
                <div class=" ; "score-value" ; ">{total_score}</div>
            </div>
            <div class=" ; "score-card" ; ">
                <h3>Level 1: Containerized</h3>
                <div class=" ; "score-value" ; ">{level1_score}/20</div>
            </div>
            <div class=" ; "score-card" ; ">
                <h3>Level 2: Orchestrated</h3>
                <div class=" ; "score-value" ; ">{level2_score}/35</div>
            </div>
            <div class=" ; "score-card" ; ">
                <h3>Level 3: Microservices</h3>
                <div class=" ; "score-value" ; ">{level3_score}/25</div>
            </div>
            <div class=" ; "score-card" ; ">
                <h3>Level 4: Cloud Native</h3>
                <div class=" ; "score-value" ; ">{level4_score}/15</div>
            </div>
            <div class=" ; "score-card" ; ">
                <h3>Level 5: Operations</h3>
                <div class=" ; "score-value" ; ">{level5_score}/20</div>
            </div>
        </div>
        
        <div class=" ; "charts-container" ; ">
            <div class=" ; "chart-box" ; ">
                <h3>Score Distribution</h3>
                <canvas id=" ; "radarChart" ; "></canvas>
            </div>
            <div class=" ; "chart-box" ; ">
                <h3>Progress by Level</h3>
                <canvas id=" ; "barChart" ; "></canvas>
            </div>
        </div>
        
        <div class=" ; "recommendations" ; ">
            <h3>Recommendations</h3>
            <ul>
                {recommendations}
            </ul>
        </div>
    </div>
    
    <script>
        // Radar Chart
        const radarCtx = document.getElementById('radarChart').getContext('2d');
        new Chart(radarCtx, {{
            type: 'radar',
            data: {{
                labels: ['Containerization', 'Orchestration', 'Microservices', 'Cloud Native', 'Operations'],
                datasets: [{{
                    label: 'Current Score',
                    data: [{level1_pct}, {level2_pct}, {level3_pct}, {level4_pct}, {level5_pct}],
                    backgroundColor: 'rgba(102, 126, 234, 0.2)',
                    borderColor: 'rgba(102, 126, 234, 1)',
                    borderWidth: 2
                }}]
            }},
            options: {{
                scales: {{
                    r: {{
                        beginAtZero: true,
                        max: 100
                    }}
                }}
            }}
        }});
        
        // Bar Chart
        const barCtx = document.getElementById('barChart').getContext('2d');
        new Chart(barCtx, {{
            type: 'bar',
            data: {{
                labels: ['Level 1', 'Level 2', 'Level 3', 'Level 4', 'Level 5'],
                datasets: [{{
                    label: 'Score',
                    data: [{level1_score}, {level2_score}, {level3_score}, {level4_score}, {level5_score}],
                    backgroundColor: [
                        'rgba(76, 175, 80, 0.6)',
                        'rgba(33, 150, 243, 0.6)',
                        'rgba(255, 193, 7, 0.6)',
                        'rgba(156, 39, 176, 0.6)',
                        'rgba(255, 87, 34, 0.6)'
                    ],
                    borderColor: [
                        'rgba(76, 175, 80, 1)',
                        'rgba(33, 150, 243, 1)',
                        'rgba(255, 193, 7, 1)',
                        'rgba(156, 39, 176, 1)',
                        'rgba(255, 87, 34, 1)'
                    ],
                    borderWidth: 1
                }}, {{
                    label: 'Max Score',
                    data: [20, 35, 25, 15, 20],
                    backgroundColor: 'rgba(200, 200, 200, 0.3)',
                    borderColor: 'rgba(200, 200, 200, 1)',
                    borderWidth: 1
                }}]
            }},
            options: {{
                scales: {{
                    y: {{
                        beginAtZero: true
                    }}
                }}
            }}
        }});
    </script>
</body>
</html>
        "].

Definition _generate_recommendations (self : MaturityReportGenerator)
  : list string :=
  let recommendations : list string := [] in
  let scores := scores (report_data self) in
  (* Level 1 recommendations *)
  let recommendations :=
    if level1 scores <? 20 then
      let recommendations :=
        if level1 scores <? 5
        then recommendations ++ ["Create a Dockerfile for containerizing the application"]
        else recommendations in
      let recommendations :=
        if level1 scores <? 10
        then recommendations ++ ["Implement multi-stage builds to optimize container size"]
        else recommendations in
      let recommendations :=
        if level1 scores <? 15
        then recommendations ++ ["Configure containers to run as non-root user"]
        else recommendations in
      recommendations ++ ["Use minimal base images (distroless or alpine)"]
    else recommendations in
  (* Level 2 recommendations *)
  let recommendations :=
    if (level2 scores <? 35) && (level1 scores >=? 15) then
      let recommendations :=
        if level2 scores <? 10
        then recommendations ++ ["Define Custom Resource Definitions (CRDs)"]
        else recommendations in
      let recommendations :=
        if level2 scores <? 20
        then recommendations ++ ["Implement Kubernetes controller pattern"]
        else recommendations in
      let recommendations := recommendations ++ ["Create Helm charts for deployment"] in
      recommendations ++ ["Configure RBAC policies"]
    else recommendations in
  (* Level 3 recommendations *)
  let recommendations :=
    if (level3 scores <? 25) && (level2 scores >=? 25) then
      let recommendations := recommendations ++ ["Decompose application into microservices"] in
      let recommendations := recommendations ++ ["Implement service mesh for inter-service communication"] in
      recommendations ++ ["Add distributed tracing with OpenTelemetry"]
    else recommendations in
  (* Level 4 recommendations *)
  let recommendations :=
    if (level4 scores <? 15) && (level3 scores >=? 15) then
      let recommendations := recommendations ++ ["Integrate with cloud provider services (AWS/Azure/GCP)"] in
      let recommendations := recommendations ++ ["Implement multi-cloud support"] in
      recommendations ++ ["Add cost optimization features"]
    else recommendations in
  (* Level 5 recommendations *)
  let recommendations :=
    if (level5 scores <? 20) && (level4 scores >=? 10) then
      let recommendations := recommendations ++ ["Implement GitOps workflow"] in
      let recommendations := recommendations ++ ["Add comprehensive E2E testing"] in
      recommendations ++ ["Implement predictive scaling and self-healing"]
    else recommendations in
  match recommendations with
  | [] => recommendations ++ ["Excellent! Continue maintaining high standards and consider contributing to CNCF"]
  | _ => recommendations
  end.

(** [(score / maximum) * 100], the expression both reports display. *)
Definition level_pct (score maximum : Z) : result float :=
  q ← int_truediv score maximum;
  float_mul_int q 100.

Definition generate_html_report (self : MaturityReportGenerator)
  : result string :=
  let scores := scores (report_data self) in
  (* Calculate percentages *)
  level1_pct ← level_pct (level1 scores) 20;
  level2_pct ← level_pct (level2 scores) 35;
  level3_pct ← level_pct (level3 scores) 25;
  level4_pct ← level_pct (level4 scores) 15;
  level5_pct ← level_pct (level5 scores) 20;
  (* Generate recommendations *)
  let recommendations := _generate_recommendations self in
  let recommendations_html :=
    join nl (map (fun rec => "<li>" +:+ rec +:+ "</li>") recommendations) in
  (* Format the template *)
  level1_pct ← round level1_pct;
  level2_pct ← round level2_pct;
  level3_pct ← round level3_pct;
  level4_pct ← round level4_pct;
  level5_pct ← round level5_pct;
  format html_template
    [ ("timestamp", timestamp (report_data self));
      ("maturity_level", maturityLevel (report_data self));
      ("percentage", str_of_int (percentage scores));
      ("total_score", str_of_int (total scores));
      ("level1_score", str_of_int (level1 scores));
      ("level2_score", str_of_int (level2 scores));
      ("level3_score", str_of_int (level3 scores));
      ("level4_score", str_of_int (level4 scores));
      ("level5_score", str_of_int (level5 scores));
      ("level1_pct", str_of_int level1_pct);
      ("level2_pct", str_of_int level2_pct);
      ("level3_pct", str_of_int level3_pct);
      ("level4_pct", str_of_int level4_pct);
      ("level5_pct", str_of_int level5_pct);
      ("recommendations", recommendations_html) ].

(** [enumerate(l, start)]. *)
Fixpoint enumerate {A} (start : Z) (l : list A) : list (Z * A) :=
  match l with
  | [] => []
  | x :: l' => (start, x) :: enumerate (start + 1) l'
  end.

Definition generate_markdown_report (self : MaturityReportGenerator)
  : result string :=
  let scores := scores (report_data self) in
  let recommendations := _generate_recommendations self in
  pct1 ← level_pct (level1 scores) 20;
  pct2 ← level_pct (level2 scores) 35;
  pct3 ← level_pct (level3 scores) 25;
  pct4 ← level_pct (level4 scores) 15;
  pct5 ← level_pct (level5 scores) 20;
  let markdown :=
    "# Cloud Native Maturity Assessment Report

**Project**: Gunj Operator  
**Generated**: " +:+
      timestamp (report_data self) +:+
      "  
**Maturity Level**: " +:+
      maturityLevel (report_data self) +:+
      "  

## Executive Summary

The Gunj Operator project has achieved a maturity score of **" +:+
      str_of_int (total scores) +:+
      "/115** (" +:+
      str_of_int (percentage scores) +:+
      "%), 
placing it at **" +:+
      maturityLevel (report_data self) +:+
      "**.

## Score Breakdown

| Level | Description | Score | Max | Percentage |
|-------|-------------|-------|-----|------------|
| 1 | Containerization | " +:+
      str_of_int (level1 scores) +:+
      " | 20 | " +:+
      format_0f pct1 +:+
      "% |
| 2 | Dynamic Orchestration | " +:+
      str_of_int (level2 scores) +:+
      " | 35 | " +:+
      format_0f pct2 +:+
      "% |
| 3 | Microservices Oriented | " +:+
      str_of_int (level3 scores) +:+
      " | 25 | " +:+
      format_0f pct3 +:+
      "% |
| 4 | Cloud Native Services | " +:+
      str_of_int (level4 scores) +:+
      " | 15 | " +:+
      format_0f pct4 +:+
      "% |
| 5 | Cloud Native Operations | " +:+
      str_of_int (level5 scores) +:+
      " | 20 | " +:+
      format_0f pct5 +:+
      "% |
| **Total** | | **" +:+
      str_of_int (total scores) +:+
      "** | **115** | **" +:+
      str_of_int (percentage scores) +:+
      "%** |

## Recommendations

" in
  let markdown :=
    fold_left
      (fun markdown '(i, rec) =>
         markdown +:+ str_of_int i +:+ ". " +:+ rec +:+ nl)
      (enumerate 1 recommendations) markdown in
  let markdown :=
    markdown +:+
    "
## Next Steps

1. Address the recommendations above in priority order
2. Re-run the assessment after implementing changes
3. Track progress over time using the maturity dashboard
4. Share results with stakeholders and team members

---

*This report was automatically generated by the Cloud Native Maturity Assessment tool.*
" in
  mret markdown.

(** What a run leaves behind: the files written, in order, and the
    lines printed. *)
Record effects := mkEffects
  { written : list (string * string);
    printed : list string }.

Definition save_reports (self : MaturityReportGenerator)
  : effects * result unit :=
  (* Save HTML report *)
  match generate_html_report self with
  | Raise e => (mkEffects [] [], Raise e)
  | Ok html_content =>
      let written := [ ("maturity-report.html", html_content) ] in
      (* Save Markdown report *)
      match generate_markdown_report self with
      | Raise e => (mkEffects written [], Raise e)
      | Ok markdown_content =>
          (mkEffects
             (written ++ [ ("maturity-report.md", markdown_content) ])
             [ "Reports generated successfully!";
               "- HTML Report: maturity-report.html";
               "- Markdown Report: maturity-report.md" ],
           Ok tt)
      end
  end.

(** The script's entry point. *)
Definition main (utcnow : string) (fs : disk) : effects * result unit :=
  match __init__ utcnow fs "maturity-assessment-report.json" with
  | Raise e => (mkEffects [] [], Raise e)
  | Ok generator => save_reports generator
  end.

End Maturity.


(** ** [scripts/generate-security-dashboard.py] *)

Module Security.
Import Py.

(** *** Documents *)

(** [security-assessment-report.json]: the script reads one key,
    [summary], a dictionary of integers. *)
Record Assessment := mkAssessment
  { summary : option (gmap string Z) }.

(** [trivy-results.json]: a list of scan results, each with a list
    of vulnerability entries; every key may be absent. *)
Record Vulnerability := mkVulnerability
  { Severity : option string }.

Record ScanResult := mkScanResult
  { Vulnerabilities : option (list Vulnerability) }.

Record TrivyData := mkTrivyData
  { Results : option (list ScanResult) }.

Record Scanning := mkScanning
  { last_scan : string;
    containers_scanned : Z;
    dependencies_scanned : Z;
    code_coverage : Z }.

Record Metrics := mkMetrics
  { vulnerabilities : gmap string Z;
    scanning : Scanning }.

Record Standard := mkStandard
  { score : Z;
    controls_passed : Z;
    controls_total : Z }.

(** [standards] is a dictionary the dashboard iterates over, in
    insertion order. *)
Record Compliance := mkCompliance
  { standards : list (string * Standard);
    overall_compliance : float }.

(** [self.results], with its three keys. *)
Record ResultsDict := mkResults
  { results_assessment : option Assessment;
    results_vulnerabilities : option Metrics;
    results_compliance : option Compliance }.

(** [self.timestamp], through the three renderings the script takes
    of it: [isoformat()], [strftime("%Y-%m-%d %H:%M UTC")] and
    [(self.timestamp + timedelta(hours=24)).isoformat()]. *)
Record datetime := mkDatetime
  { isoformat : string;
    strftime : string;
    isoformat_next_day : string }.

Record MetricsSnapshot := mkSnapshot
  { snapshot_timestamp : string;
    security_score : Z;
    compliance_score : option float;
    snapshot_vulnerabilities : gmap string Z;
    scanning_status : string * string }.

(** *** The world of a run *)

(** The two input files of the working directory. *)
Record disk := mkDisk
  { security_assessment_report_json : option (file Assessment);
    trivy_results_json : option (file TrivyData) }.

(** What [subprocess.run] does with [./hack/security-assessment.sh]:
    it returns the exit status of the script (whatever it is, there
    is no [check=True]) or raises; either way the script may have
    changed the files. *)
Inductive run_outcome :=
| Completed (returncode : Z) (after : disk)
| Failed (e : exn) (after : disk).

Inductive content :=
| Text (s : string)
| JsonDump (m : MetricsSnapshot).

Record state := mkState
  { results : ResultsDict;
    fs : disk;
    stdout : list string;
    written : list (string * content) }.

(** Statements: they change the state and return or raise. *)
Definition M (A : Type) : Type := state -> state * result A.

#[export] Instance M_ret : MRet M := fun A a st => (st, Ok a).
#[export] Instance M_bind : MBind M := fun A B k m st =>
  match m st with
  | (st', Ok a) => k a st'
  | (st', Raise e) => (st', Raise e)
  end.

Definition lift {A} (r : result A) : M A := fun st => (st, r).

Definition get_results : M ResultsDict := fun st => (st, Ok (results st)).

Definition get_fs : M disk := fun st => (st, Ok (fs st)).

Definition set_results (r : ResultsDict) : M unit := fun st =>
  (mkState r (fs st) (stdout st) (written st), Ok tt).

Definition print (line : string) : M unit := fun st =>
  (mkState (results st) (fs st) (stdout st ++ [line]) (written st), Ok tt).

Definition write (path : string) (c : content) : M unit := fun st =>
  (mkState (results st) (fs st) (stdout st) (written st ++ [(path, c)]), Ok tt).

(** [try: body except Exception as e: handler]. *)
Definition try_except {A} (body : M A) (handler : exn -> M A) : M A :=
  fun st =>
    match body st with
    | (st', Raise e) =>
        if is_Exception (exn_cls e) then handler e st' else (st', Raise e)
    | r => r
    end.

Definition subprocess_run (script : disk -> run_outcome) : M Z := fun st =>
  match script (fs st) with
  | Completed returncode after =>
      (mkState (results st) after (stdout st) (written st), Ok returncode)
  | Failed e after =>
      (mkState (results st) after (stdout st) (written st), Raise e)
  end.

(** *** The generator *)

Definition __init__ : ResultsDict := mkResults None None None.

Definition run_security_assessment (script : disk -> run_outcome)
  : M ResultsDict :=
  print "Running security assessment...";;
  (* Run the bash script *)
  try_except
    (result ← subprocess_run script;
     (* Load the generated JSON report *)
     fs ← get_fs;
     match security_assessment_report_json fs with
     | Some f =>
         doc ← lift (json_load f);
         r ← get_results;
         set_results (mkResults (Some doc) (results_vulnerabilities r)
                                (results_compliance r))
     | None => mret tt
     end)
    (fun e =>
       print ("Error running assessment: " +:+ str_exn e);;
       r ← get_results;
       set_results
         (mkResults
            (Some {| summary :=
                       Some (<["total_score" := 0]>
                               (<["max_score" := 100]>
                                  (<["percentage" := 0]> ∅))) |})
            (results_vulnerabilities r) (results_compliance r)));;
  get_results.

(** The body of the inner loop: one vulnerability entry. *)
Definition count_vulnerability
    (vulnerabilities : gmap string Z) (vuln : Vulnerability)
  : gmap string Z :=
  let severity := lower (default "LOW" (Severity vuln)) in
  match vulnerabilities !! severity with
  | Some n => <[severity := n + 1]> vulnerabilities
  | None => vulnerabilities
  end.

(** Process Trivy results. *)
Definition process_trivy
    (vulnerabilities : gmap string Z) (trivy_data : TrivyData)
  : gmap string Z :=
  fold_left
    (fun vulnerabilities result =>
       fold_left count_vulnerability
                 (default [] (Vulnerabilities result)) vulnerabilities)
    (default [] (Results trivy_data)) vulnerabilities.

Definition collect_vulnerability_metrics (timestamp : datetime)
  : M Metrics :=
  let metrics :=
    {| vulnerabilities :=
         <["critical" := 0]>
           (<["high" := 0]> (<["medium" := 0]> (<["low" := 0]> ∅)));
       scanning :=
         {| last_scan := isoformat timestamp;
            containers_scanned := 0;
            dependencies_scanned := 0;
            code_coverage := 0 |} |} in
  (* Check for Trivy results *)
  fs ← get_fs;
  metrics ←
    match trivy_results_json fs with
    | Some f =>
        trivy_data ← lift (json_load f);
        mret (mkMetrics (process_trivy (vulnerabilities metrics) trivy_data)
                        (scanning metrics))
    | None => mret metrics
    end;
  r ← get_results;
  set_results (mkResults (results_assessment r) (Some metrics)
                         (results_compliance r));;
  mret metrics.

Definition generate_compliance_report : M Compliance :=
  let compliance :=
    {| standards :=
         [ ("CIS_Kubernetes",
            {| score := 85; controls_passed := 95; controls_total := 112 |});
           ("NIST_CSF",
            {| score := 78; controls_passed := 156; controls_total := 200 |});
           ("OWASP_API",
            {| score := 90; controls_passed := 9; controls_total := 10 |}) ];
       overall_compliance := float_literal 843 10 |} in
  r ← get_results;
  set_results (mkResults (results_assessment r) (results_vulnerabilities r)
                         (Some compliance));;
  mret compliance.

Definition html_template : string :=
  join dq ["
<!DOCTYPE html>
<html lang=" ; "en" ; ">
<head>
    <meta charset=" ; "UTF-8" ; ">
    <meta name=" ; "viewport" ; " content=" ; "width=device-width, initial-scale=1.0" ; ">
    <title>Security Compliance Dashboard - Gunj Operator</title>
    <script src=" ; "https://cdn.jsdelivr.net/npm/chart.js" ; "></script>
    <link href=" ; "https://cdn.jsdelivr.net/npm/tailwindcss@2.2.19/dist/tailwind.min.css" ; " rel=" ; "stylesheet" ; ">
    <style>
        .metric-card {
            background: linear-gradient(135deg, #667eea 0%, #764ba2 100%);
            color: white;
            padding: 1.5rem;
            border-radius: 0.5rem;
            box-shadow: 0 4px 6px rgba(0, 0, 0, 0.1);
        }
        .chart-container {
            position: relative;
            height: 300px;
            margin: 20px 0;
        }
        .security-score {
            font-size: 3rem;
            font-weight: bold;
            text-align: center;
        }
        .status-indicator {
            display: inline-block;
            width: 12px;
            height: 12px;
            border-radius: 50%;
            margin-right: 8px;
        }
        .status-good { background-color: #10b981; }
        .status-warning { background-color: #f59e0b; }
        .status-critical { background-color: #ef4444; }
    </style>
</head>
<body class=" ; "bg-gray-100" ; ">
    <div class=" ; "container mx-auto px-4 py-8" ; ">
        <h1 class=" ; "text-4xl font-bold text-center mb-8" ; ">Security Compliance Dashboard</h1>
        <p class=" ; "text-center text-gray-600 mb-8" ; ">Generated on: {timestamp}</p>
        
        <!-- Security Score Overview -->
        <div class=" ; "grid grid-cols-1 md:grid-cols-3 gap-6 mb-8" ; ">
            <div class=" ; "metric-card" ; ">
                <h3 class=" ; "text-lg font-semibold mb-2" ; ">Security Score</h3>
                <div class=" ; "security-score" ; ">{security_score}%</div>
                <p class=" ; "text-sm opacity-80" ; ">Overall security posture</p>
            </div>
            
            <div class=" ; "metric-card" ; ">
                <h3 class=" ; "text-lg font-semibold mb-2" ; ">Compliance Score</h3>
                <div class=" ; "security-score" ; ">{compliance_score}%</div>
                <p class=" ; "text-sm opacity-80" ; ">Standards compliance</p>
            </div>
            
            <div class=" ; "metric-card" ; ">
                <h3 class=" ; "text-lg font-semibold mb-2" ; ">Vulnerabilities</h3>
                <div class=" ; "security-score" ; ">{total_vulns}</div>
                <p class=" ; "text-sm opacity-80" ; ">Total open vulnerabilities</p>
            </div>
        </div>
        
        <!-- Vulnerability Breakdown -->
        <div class=" ; "bg-white rounded-lg shadow p-6 mb-8" ; ">
            <h2 class=" ; "text-2xl font-bold mb-4" ; ">Vulnerability Analysis</h2>
            <div class=" ; "grid grid-cols-1 md:grid-cols-2 gap-6" ; ">
                <div class=" ; "chart-container" ; ">
                    <canvas id=" ; "vulnChart" ; "></canvas>
                </div>
                <div>
                    <h3 class=" ; "text-lg font-semibold mb-4" ; ">Severity Breakdown</h3>
                    <div class=" ; "space-y-2" ; ">
                        <div class=" ; "flex items-center justify-between" ; ">
                            <span><span class=" ; "status-indicator status-critical" ; "></span>Critical</span>
                            <span class=" ; "font-bold" ; ">{critical_vulns}</span>
                        </div>
                        <div class=" ; "flex items-center justify-between" ; ">
                            <span><span class=" ; "status-indicator status-warning" ; "></span>High</span>
                            <span class=" ; "font-bold" ; ">{high_vulns}</span>
                        </div>
                        <div class=" ; "flex items-center justify-between" ; ">
                            <span><span class=" ; "status-indicator" ; " style=" ; "background-color: #f59e0b;" ; "></span>Medium</span>
                            <span class=" ; "font-bold" ; ">{medium_vulns}</span>
                        </div>
                        <div class=" ; "flex items-center justify-between" ; ">
                            <span><span class=" ; "status-indicator status-good" ; "></span>Low</span>
                            <span class=" ; "font-bold" ; ">{low_vulns}</span>
                        </div>
                    </div>
                </div>
            </div>
        </div>
        
        <!-- Compliance Status -->
        <div class=" ; "bg-white rounded-lg shadow p-6 mb-8" ; ">
            <h2 class=" ; "text-2xl font-bold mb-4" ; ">Compliance Status</h2>
            <div class=" ; "grid grid-cols-1 md:grid-cols-3 gap-4" ; ">
                {compliance_cards}
            </div>
        </div>
        
        <!-- Security Checks -->
        <div class=" ; "bg-white rounded-lg shadow p-6 mb-8" ; ">
            <h2 class=" ; "text-2xl font-bold mb-4" ; ">Security Check Results</h2>
            <div class=" ; "overflow-x-auto" ; ">
                <table class=" ; "min-w-full divide-y divide-gray-200" ; ">
                    <thead class=" ; "bg-gray-50" ; ">
                        <tr>
                            <th class=" ; "px-6 py-3 text-left text-xs font-medium text-gray-500 uppercase tracking-wider" ; ">Category</th>
                            <th class=" ; "px-6 py-3 text-left text-xs font-medium text-gray-500 uppercase tracking-wider" ; ">Check</th>
                            <th class=" ; "px-6 py-3 text-left text-xs font-medium text-gray-500 uppercase tracking-wider" ; ">Status</th>
                            <th class=" ; "px-6 py-3 text-left text-xs font-medium text-gray-500 uppercase tracking-wider" ; ">Points</th>
                        </tr>
                    </thead>
                    <tbody class=" ; "bg-white divide-y divide-gray-200" ; ">
                        {security_checks}
                    </tbody>
                </table>
            </div>
        </div>
        
        <!-- Recommendations -->
        <div class=" ; "bg-white rounded-lg shadow p-6" ; ">
            <h2 class=" ; "text-2xl font-bold mb-4" ; ">Recommendations</h2>
            <div class=" ; "space-y-3" ; ">
                {recommendations}
            </div>
        </div>
    </div>
    
    <script>
        // Vulnerability Chart
        const ctx = document.getElementById('vulnChart').getContext('2d');
        new Chart(ctx, {{
            type: 'doughnut',
            data: {{
                labels: ['Critical', 'High', 'Medium', 'Low'],
                datasets: [{{
                    data: [{critical_vulns}, {high_vulns}, {medium_vulns}, {low_vulns}],
                    backgroundColor: [
                        'rgba(239, 68, 68, 0.8)',
                        'rgba(245, 158, 11, 0.8)',
                        'rgba(251, 191, 36, 0.8)',
                        'rgba(16, 185, 129, 0.8)'
                    ]
                }}]
            }},
            options: {{
                responsive: true,
                maintainAspectRatio: false,
                plugins: {{
                    legend: {{
                        position: 'bottom'
                    }}
                }}
            }}
        }});
    </script>
</body>
</html>
        "].

(** [sum(d.values())]. *)
Definition sum_values (d : gmap string Z) : Z :=
  map_fold (fun _ v acc => acc + v) 0 d.

(** [self.results.get('assessment', {}).get('summary', {})]. *)
Definition assessment_summary (r : ResultsDict) : gmap string Z :=
  default ∅ (a ← results_assessment r; summary a).

(** [self.results.get('vulnerabilities', {}).get('vulnerabilities', {})]. *)
Definition vulnerability_counts (r : ResultsDict) : gmap string Z :=
  default ∅ (vulnerabilities <$> results_vulnerabilities r).

(** The keyword argument [total_vulns] of the dashboard. *)
Definition dashboard_total_vulns (r : ResultsDict) : Z :=
  sum_values (vulnerability_counts r).

(** The keyword argument [compliance_score] of the dashboard:
    [int(compliance.get('overall_compliance', 0))]. *)
Definition dashboard_compliance_score (r : ResultsDict) : result Z :=
  match results_compliance r with
  | Some compliance => int_of_float (overall_compliance compliance)
  | None => Ok 0
  end.

Definition compliance_cards (r : ResultsDict) : string :=
  fold_left
    (fun compliance_cards '(standard, data) =>
       compliance_cards +:+
       (join dq ["
            <div class=" ; "bg-gray-50 p-4 rounded" ; ">
                <h3 class=" ; "font-semibold" ; ">"] +:+
      replace_char "_" " " standard +:+
      join dq ["</h3>
                <div class=" ; "text-2xl font-bold mt-2" ; ">"] +:+
      str_of_int (score data) +:+
      join dq ["%</div>
                <p class=" ; "text-sm text-gray-600" ; ">"] +:+
      str_of_int (controls_passed data) +:+
      "/" +:+
      str_of_int (controls_total data) +:+
      " controls</p>
            </div>
            "))
    (default [] (standards <$> results_compliance r)) "".

Definition recommendations_html : string :=
  let recommendations :=
    [ "Enable container image signing for all production images";
      "Implement automated vulnerability patching for dependencies";
      "Add runtime security monitoring with Falco";
      "Increase code coverage to meet 80% threshold";
      "Review and update RBAC policies quarterly" ] in
  fold_left
    (fun recommendations_html rec =>
       recommendations_html +:+
       (join dq ["
            <div class=" ; "flex items-start" ; ">
                <svg class=" ; "w-5 h-5 text-yellow-500 mt-0.5 mr-2" ; " fill=" ; "currentColor" ; " viewBox=" ; "0 0 20 20" ; ">
                    <path fill-rule=" ; "evenodd" ; " d=" ; "M18 10a8 8 0 11-16 0 8 8 0 0116 0zm-7-4a1 1 0 11-2 0 1 1 0 012 0zM9 9a1 1 0 000 2v3a1 1 0 001 1h1a1 1 0 100-2v-3a1 1 0 00-1-1H9z" ; " clip-rule=" ; "evenodd" ; "></path>
                </svg>
                <span>"] +:+
      rec +:+
      "</span>
            </div>
            "))
    recommendations "".

Definition generate_html_dashboard (timestamp : datetime) : M string :=
  r ← get_results;
  let assessment := assessment_summary r in
  let vulnerabilities := vulnerability_counts r in
  (* Calculate total vulnerabilities *)
  let total_vulns := dashboard_total_vulns r in
  (* Fill template *)
  compliance_score ← lift (dashboard_compliance_score r);
  lift (format html_template
    [ ("timestamp", strftime timestamp);
      ("security_score", str_of_int (default 0 (assessment !! "percentage")));
      ("compliance_score", str_of_int compliance_score);
      ("total_vulns", str_of_int total_vulns);
      ("critical_vulns", str_of_int (default 0 (vulnerabilities !! "critical")));
      ("high_vulns", str_of_int (default 0 (vulnerabilities !! "high")));
      ("medium_vulns", str_of_int (default 0 (vulnerabilities !! "medium")));
      ("low_vulns", str_of_int (default 0 (vulnerabilities !! "low")));
      ("compliance_cards", compliance_cards r);
      ("security_checks",
       "<tr><td colspan='4' class='text-center py-4'>Run security assessment to see detailed results</td></tr>");
      ("recommendations", recommendations_html) ]).

Definition generate_metrics_json (timestamp : datetime) : M MetricsSnapshot :=
  r ← get_results;
  let metrics :=
    {| snapshot_timestamp := isoformat timestamp;
       security_score := default 0 (assessment_summary r !! "percentage");
       compliance_score := overall_compliance <$> results_compliance r;
       snapshot_vulnerabilities := vulnerability_counts r;
       scanning_status := (isoformat timestamp, isoformat_next_day timestamp) |} in
  (* Save metrics *)
  write "security-metrics.json" (JsonDump metrics);;
  mret metrics.

Definition run (timestamp : datetime) (script : disk -> run_outcome)
  : M unit :=
  print "Security Dashboard Generator - Gunj Operator";;
  print "==================================================";;
  print (nl +:+ "1. Running security assessment...");;
  run_security_assessment script;;
  print (nl +:+ "2. Collecting vulnerability metrics...");;
  collect_vulnerability_metrics timestamp;;
  print (nl +:+ "3. Generating compliance report...");;
  generate_compliance_report;;
  print (nl +:+ "4. Creating HTML dashboard...");;
  html_content ← generate_html_dashboard timestamp;
  write "security-dashboard.html" (Text html_content);;
  print (nl +:+ "5. Generating metrics JSON...");;
  generate_metrics_json timestamp;;
  print (nl +:+ "✅ Dashboard generation complete!");;
  print (nl +:+ "Generated files:");;
  print "  - security-dashboard.html";;
  print "  - security-metrics.json";;
  print "  - security-assessment-report.json".

(** The script's entry point: a fresh generator in the given
    working directory. *)
Definition main (timestamp : datetime) (script : disk -> run_outcome)
    (fs : disk) : state * result unit :=
  run timestamp script (mkState __init__ fs [] []).

End Security.


(** ** Vocabulary of the properties *)

Module Spec.
Import Py.

(** *** Maturity report *)

(** The recommendations of each maturity level, as the source groups
    them under its [# Level n recommendations] comments. *)
Definition level1_recommendations : list string :=
  [ "Create a Dockerfile for containerizing the application";
    "Implement multi-stage builds to optimize container size";
    "Configure containers to run as non-root user";
    "Use minimal base images (distroless or alpine)" ].

Definition level2_recommendations : list string :=
  [ "Define Custom Resource Definitions (CRDs)";
    "Implement Kubernetes controller pattern";
    "Create Helm charts for deployment";
    "Configure RBAC policies" ].

Definition level3_recommendations : list string :=
  [ "Decompose application into microservices";
    "Implement service mesh for inter-service communication";
    "Add distributed tracing with OpenTelemetry" ].

Definition level4_recommendations : list string :=
  [ "Integrate with cloud provider services (AWS/Azure/GCP)";
    "Implement multi-cloud support";
    "Add cost optimization features" ].

Definition level5_recommendations : list string :=
  [ "Implement GitOps workflow";
    "Add comprehensive E2E testing";
    "Implement predictive scaling and self-healing" ].

Definition fallback_recommendation : string :=
  "Excellent! Continue maintaining high standards and consider contributing to CNCF".

(** The category maximums. *)
Definition category_maximums : list Z := [20; 35; 25; 15; 20].

(** [n] is an integer nearest to the exact quotient
    [100 * score / maximum]. *)
Definition nearest_percentage (score maximum n : Z) : Prop :=
  2 * Z.abs (100 * score - n * maximum) <= maximum.

(** One score displayed against its maximum: the percentage is
    computed without raising, both renderings of it ([round] for the
    HTML arguments, [.0f] for the Markdown table) agree, and the
    integer shown is a nearest one within [0, 100]. *)
Definition displayed_percentage_ok (maximum score : Z) : bool :=
  match Maturity.level_pct score maximum with
  | Ok x =>
      match round x with
      | Ok n =>
          String.eqb (format_0f x) (str_of_int n)
          && (2 * Z.abs (100 * score - n * maximum) <=? maximum)
          && (0 <=? n) && (n <=? 100)
      | Raise _ => false
      end
  | Raise _ => false
  end.

(** The integers [0 .. n]. *)
Definition upto (n : Z) : list Z :=
  map Z.of_nat (seq 0 (S (Z.to_nat n))).

(** The lines of a document. *)
Fixpoint lines_from (line : string) (s : string) : list string :=
  match s with
  | EmptyString => [line]
  | String c s' =>
      if Ascii.eqb c (ascii_of_nat 10) then line :: lines_from "" s'
      else lines_from (line +:+ String c "") s'
  end.

Definition lines (s : string) : list string := lines_from "" s.

(** *** Security dashboard *)

Import Security.

(** The severity dictionary with its four tiers. *)
Definition tiers (critical high medium low : Z) : gmap string Z :=
  <["critical" := critical]>
    (<["high" := high]> (<["medium" := medium]> (<["low" := low]> ∅))).

Definition tier_names : list string := ["critical"; "high"; "medium"; "low"].

(** The key under which an entry is counted, if it is a tier. *)
Definition severity_key (vuln : Vulnerability) : string :=
  lower (default "LOW" (Severity vuln)).

(** The number of entries counted under [tier]. *)
Definition count_in (tier : string) (l : list Vulnerability) : Z :=
  Z.of_nat (length (filter (fun vuln => severity_key vuln = tier) l)).

(** Every vulnerability entry of the input, in scan order. *)
Definition all_entries (trivy_data : TrivyData) : list Vulnerability :=
  concat (map (fun result => default [] (Vulnerabilities result))
              (default [] (Results trivy_data))).

(** The tier count the dashboard shows: [vulnerabilities.get(tier, 0)]. *)
Definition shown (r : ResultsDict) (tier : string) : Z :=
  default 0 (vulnerability_counts r !! tier).

(** The metrics that [collect_vulnerability_metrics] builds from the
    entries it has read, and the state it leaves. *)
Definition metrics_of (timestamp : datetime) (l : list Vulnerability) : Metrics :=
  {| vulnerabilities :=
       tiers (count_in "critical" l) (count_in "high" l)
             (count_in "medium" l) (count_in "low" l);
     scanning :=
       {| last_scan := isoformat timestamp;
          containers_scanned := 0;
          dependencies_scanned := 0;
          code_coverage := 0 |} |}.

Definition store_metrics (metrics : Metrics) (st : state) : state :=
  mkState (mkResults (results_assessment (results st)) (Some metrics)
                     (results_compliance (results st)))
          (fs st) (stdout st) (written st).

(** The zero-valued assessment record. *)
Definition default_assessment : Assessment :=
  {| summary :=
       Some (<["total_score" := 0]>
               (<["max_score" := 100]> (<["percentage" := 0]> ∅))) |}.

Definition store_assessment (a : Assessment) (r : ResultsDict) : ResultsDict :=
  mkResults (Some a) (results_vulnerabilities r) (results_compliance r).

(** The state after an assessment whose failure was caught. *)
Definition absorbed (e : exn) (after : disk) (st : state) : state :=
  mkState (store_assessment default_assessment (results st)) after
          (stdout st ++ [ "Running security assessment...";
                          "Error running assessment: " +:+ str_exn e ])
          (written st).

(** The state after an assessment that ran to its end with the
    report [doc], or with none. *)
Definition assessed (doc : option Assessment) (after : disk) (st : state)
  : state :=
  mkState (match doc with
           | Some a => store_assessment a (results st)
           | None => results st
           end)
          after
          (stdout st ++ [ "Running security assessment..." ])
          (written st).

(** The compliance record of the source. *)
Definition constant_compliance : Compliance :=
  {| standards :=
       [ ("CIS_Kubernetes", mkStandard 85 95 112);
         ("NIST_CSF", mkStandard 78 156 200);
         ("OWASP_API", mkStandard 90 9 10) ];
     overall_compliance := float_literal 843 10 |}.

Definition store_compliance (c : Compliance) (st : state) : state :=
  mkState (mkResults (results_assessment (results st))
                     (results_vulnerabilities (results st)) (Some c))
          (fs st) (stdout st) (written st).

(** The subprocess call failed: it raised, or the script left a
    non-zero exit status. *)
Definition subprocess_failed (o : run_outcome) : Prop :=
  match o with
  | Failed _ _ => True
  | Completed returncode _ => returncode <> 0
  end.

(** Every failure of the subprocess call is caught, logged and
    replaced by the default record. *)
Definition every_failure_is_absorbed : Prop :=
  forall (script : disk -> run_outcome) (st : state),
    subprocess_failed (script (fs st)) ->
    exists (st' : state) (msg : string),
      run_security_assessment script st = (st', Ok (results st')) /\
      results_assessment (results st') = Some default_assessment /\
      In ("Error running assessment: " +:+ msg) (stdout st').

(** Invalid JSON makes every load path raise. *)
Definition malformed_json_always_propagates : Prop :=
  (forall (utcnow : string) (fs : Maturity.disk) (assessment_file msg : string),
      fs assessment_file = Some (NotJSON msg) ->
      Maturity._load_assessment_data utcnow fs assessment_file =
        Raise (Exn JSONDecodeError msg)) /\
  (forall (script : disk -> run_outcome) (st : state)
          (returncode : Z) (after : disk) (msg : string),
      script (fs st) = Completed returncode after ->
      security_assessment_report_json after = Some (NotJSON msg) ->
      snd (run_security_assessment script st) =
        Raise (Exn JSONDecodeError msg)) /\
  (forall (timestamp : datetime) (st : state) (msg : string),
      trivy_results_json (fs st) = Some (NotJSON msg) ->
      snd (collect_vulnerability_metrics timestamp st) =
        Raise (Exn JSONDecodeError msg)).

End Spec.

(** ** Sample inputs *)

Module Sample.
Import Py.

Definition clock : string := "2024-05-01T12:00:00".

(** A report with Level 1 past its gate and Level 2 short of its
    maximum. *)
Definition orchestrating : Maturity.MaturityReportGenerator :=
  Maturity.mkGenerator "maturity-assessment-report.json"
    (Maturity.mkReportData "2024-05-01T12:00:00Z" "gunj-operator"
       (Maturity.mkScores 60 52 16 30 10 2 2) "2 - Orchestrated").

(** The report of the specification's example: every level at its
    maximum. *)
Definition exemplary : Maturity.MaturityReportGenerator :=
  Maturity.mkGenerator "maturity-assessment-report.json"
    (Maturity.mkReportData "2024-05-01T12:00:00Z" "gunj-operator"
       (Maturity.mkScores 115 100 20 35 25 15 20) "5 - Cloud Native Operations").

Definition empty_directory : Maturity.disk := fun _ => None.

Definition malformed_directory : Maturity.disk := fun path =>
  if String.eqb path "maturity-assessment-report.json"
  then Some (NotJSON "Expecting value: line 1 column 1 (char 0)")
  else None.

Definition exemplary_directory : Maturity.disk := fun path =>
  if String.eqb path "maturity-assessment-report.json"
  then Some (JSON (Maturity.report_data exemplary))
  else None.

Import Security.

Definition now : datetime :=
  mkDatetime "2024-05-01T12:00:00" "2024-05-01 12:00 UTC" "2024-05-02T12:00:00".

Definition critical : Vulnerability := mkVulnerability (Some "CRITICAL").
Definition low : Vulnerability := mkVulnerability (Some "LOW").
Definition unknown : Vulnerability := mkVulnerability (Some "UNKNOWN").
Definition unlabelled : Vulnerability := mkVulnerability None.

(** Two scan results with one entry each, and one without the key. *)
Definition critical_and_low_scan : TrivyData :=
  mkTrivyData (Some [ mkScanResult (Some [critical]);
                      mkScanResult None;
                      mkScanResult (Some [low]) ]).

Definition unknown_scan : TrivyData :=
  mkTrivyData (Some [ mkScanResult (Some [unknown; unlabelled]) ]).

Definition fresh (d : disk) : state := mkState __init__ d [] [].

Definition no_files : disk := mkDisk None None.

Definition malformed_report : disk :=
  mkDisk (Some (NotJSON "Expecting value: line 1 column 1 (char 0)")) None.

Definition valid_report : disk :=
  mkDisk (Some (JSON (mkAssessment (Some (<["percentage" := 72]> ∅))))) None.

Definition malformed_trivy : disk :=
  mkDisk None (Some (NotJSON "Expecting value: line 1 column 1 (char 0)")).

(** The assessment script in three behaviours: it runs and exits with
    a status, leaving the files as they are, or cannot be started. *)
Definition exits_with (returncode : Z) : disk -> run_outcome :=
  fun d => Completed returncode d.

Definition cannot_start : disk -> run_outcome :=
  fun d => Failed (Exn FileNotFoundError
     "[Errno 2] No such file or directory: './hack/security-assessment.sh'") d.

End Sample.

(** ** Vocabulary of the further properties *)

Module Behaviour.
Import Py Spec.

(** *** Score bands

    The recommendation rules read a score only through comparisons
    with fixed thresholds; a band is the set of scores between two
    neighbouring thresholds, represented by its least element (0 for
    the band below the first threshold). *)

Definition band1 (x : Z) : Z :=
  if x <? 5 then 0 else if x <? 10 then 5
  else if x <? 15 then 10 else if x <? 20 then 15 else 20.

Definition band2 (x : Z) : Z :=
  if x <? 10 then 0 else if x <? 20 then 10
  else if x <? 25 then 20 else if x <? 35 then 25 else 35.

Definition band3 (x : Z) : Z :=
  if x <? 15 then 0 else if x <? 25 then 15 else 25.

Definition band4 (x : Z) : Z :=
  if x <? 10 then 0 else if x <? 15 then 10 else 15.

Definition band5 (x : Z) : Z :=
  if x <? 20 then 0 else 20.

Definition bands1 : list Z := [0; 5; 10; 15; 20].
Definition bands2 : list Z := [0; 10; 20; 25; 35].
Definition bands3 : list Z := [0; 15; 25].
Definition bands4 : list Z := [0; 10; 15].
Definition bands5 : list Z := [0; 20].

(** The recommendations for five level scores. *)
Definition recommendations_at (l1 l2 l3 l4 l5 : Z) : list string :=
  Maturity._generate_recommendations
    (Maturity.mkGenerator ""
       (Maturity.mkReportData "" "" (Maturity.mkScores 0 0 l1 l2 l3 l4 l5) "")).

(** A check holds in every band. *)
Definition in_every_band (check : Z -> Z -> Z -> Z -> Z -> bool) : bool :=
  forallb (fun l1 =>
  forallb (fun l2 =>
  forallb (fun l3 =>
  forallb (fun l4 =>
  forallb (fun l5 => check l1 l2 l3 l4 l5) bands5) bands4) bands3) bands2) bands1.

(** Every recommendation the engine knows, in the order of the
    source, the fallback last. *)
Definition catalogue : list string :=
  level1_recommendations ++ level2_recommendations ++
  level3_recommendations ++ level4_recommendations ++
  level5_recommendations ++ [fallback_recommendation].

(** [l] is [k] with some elements left out. *)
Fixpoint subsequence (l k : list string) : bool :=
  match l, k with
  | [], _ => true
  | _ :: _, [] => false
  | x :: l', y :: k' =>
      if String.eqb x y then subsequence l' k' else subsequence l k'
  end.

Definition mentions (rec : string) (l : list string) : bool :=
  existsb (String.eqb rec) l.

(** The integers from [lo] on, [n] of them. *)
Definition integers_from (lo : Z) (n : nat) : list Z :=
  map (fun i => lo + Z.of_nat i) (seq 0 n).

(** One score of any sign against its maximum: the percentage is
    computed, both renderings agree on a nearest integer, which is
    above 100 exactly when the score is above the maximum and negative
    exactly when the score is. *)
Definition unclamped_percentage_ok (maximum score : Z) : bool :=
  match Maturity.level_pct score maximum with
  | Ok x =>
      match round x with
      | Ok n =>
          String.eqb (format_0f x) (str_of_int n)
          && (2 * Z.abs (100 * score - n * maximum) <=? maximum)
          && Bool.eqb (100 <? n) (maximum <? score)
          && Bool.eqb (n <? 0) (score <? 0)
      | Raise _ => false
      end
  | Raise _ => false
  end.

(** [piece] occurs in [doc]. *)
Definition occurs_in (piece doc : string) : Prop :=
  exists before after : string, doc = before +:+ piece +:+ after.

(** The line of the Markdown report for the recommendation [rec] at
    position [i]. *)
Definition numbered_line (i : Z) (rec : string) : string :=
  str_of_int i +:+ ". " +:+ rec +:+ nl.

(** *** Severity tiers *)

Import Security.

(** The entry is counted: its key is one of the four tiers. *)
Definition recognised (vuln : Vulnerability) : bool :=
  existsb (String.eqb (severity_key vuln)) tier_names.

(** The security score a dashboard or a metrics snapshot takes from
    the results: [summary.get('percentage', 0)]. *)
Definition reported_security_score (r : ResultsDict) : Z :=
  default 0 (assessment_summary r !! "percentage").


(** The security score of a report document. *)
Definition percentage_of (doc : Assessment) : Z :=
  default 0 (default ∅ (summary doc) !! "percentage").

End Behaviour.

(** ** Vocabulary of the rendered documents *)

Module Documents.
Import Py Maturity Spec Behaviour.

(** *** The Markdown report *)

(** What the report reads before the timestamp. *)
Definition markdown_heading : string :=
  "# Cloud Native Maturity Assessment Report

**Project**: Gunj Operator  
**Generated**: ".

(** One row of the score table, with the percentage it shows. *)
Definition score_row
    (level description : string) (score maximum shown : Z) : string :=
  "| " +:+ level +:+ " | " +:+ description +:+ " | " +:+
  str_of_int score +:+ " | " +:+ str_of_int maximum +:+ " | " +:+
  str_of_int shown +:+ "% |" +:+ nl.

Definition total_row (total shown : Z) : string :=
  "| **Total** | | **" +:+ str_of_int total +:+ "** | **115** | **" +:+
  str_of_int shown +:+ "%** |" +:+ nl.

(** The score table: its two header lines, the five level rows
    showing [n1 .. n5] percent, and the Total row showing [shown]
    percent. *)
Definition score_table (s : Scores) (n1 n2 n3 n4 n5 shown : Z) : string :=
  "| Level | Description | Score | Max | Percentage |" +:+ nl +:+
  "|-------|-------------|-------|-----|------------|" +:+ nl +:+
  score_row "1" "Containerization" (level1 s) 20 n1 +:+
  score_row "2" "Dynamic Orchestration" (level2 s) 35 n2 +:+
  score_row "3" "Microservices Oriented" (level3 s) 25 n3 +:+
  score_row "4" "Cloud Native Services" (level4 s) 15 n4 +:+
  score_row "5" "Cloud Native Operations" (level5 s) 20 n5 +:+
  total_row (total s) shown.

(** The numbered lines of a list of recommendations. *)
Definition numbered_lines (l : list (Z * string)) : string :=
  fold_right (fun '(i, rec) rest => numbered_line i rec +:+ rest) "" l.

(** [piece] occurs in [doc], decided. *)
Fixpoint contains (piece doc : string) : bool :=
  String.prefix piece doc ||
  match doc with
  | EmptyString => false
  | String _ doc' => contains piece doc'
  end.

(** The five level scores are the category maximums. *)
Definition all_maximum (s : Scores) : Prop :=
  level1 s = 20 /\ level2 s = 35 /\ level3 s = 25 /\
  level4 s = 15 /\ level5 s = 20.

(** For a record with every level at its maximum the list is the
    fallback message alone and all six rows of the score table, the
    Total row included, show 100%. *)
Definition every_row_shows_100_percent : Prop :=
  forall self : MaturityReportGenerator,
    let s := scores (report_data self) in
    all_maximum s ->
    _generate_recommendations self = [fallback_recommendation] /\
    exists doc : string,
      generate_markdown_report self = Ok doc /\
      occurs_in (score_table s 100 100 100 100 100 100) doc.

(** Every level at its maximum, and a stored percentage of 0. *)
Definition stale_percentage : MaturityReportGenerator :=
  mkGenerator "maturity-assessment-report.json"
    (mkReportData "2024-05-01T12:00:00Z" "gunj-operator"
       (mkScores 115 0 20 35 25 15 20) "5 - Cloud Native Operations").

(** *** The HTML report *)

(** The keyword arguments [generate_html_report] passes to
    [html_template.format]: the percentages, the list items and the
    rounded values, as the report computes them before the call. *)
Definition html_arguments (self : MaturityReportGenerator) : result kwargs :=
  let scores := scores (report_data self) in
  level1_pct ← level_pct (level1 scores) 20;
  level2_pct ← level_pct (level2 scores) 35;
  level3_pct ← level_pct (level3 scores) 25;
  level4_pct ← level_pct (level4 scores) 15;
  level5_pct ← level_pct (level5 scores) 20;
  let recommendations := _generate_recommendations self in
  let recommendations_html :=
    join nl (map (fun rec => "<li>" +:+ rec +:+ "</li>") recommendations) in
  level1_pct ← round level1_pct;
  level2_pct ← round level2_pct;
  level3_pct ← round level3_pct;
  level4_pct ← round level4_pct;
  level5_pct ← round level5_pct;
  mret
    [ ("timestamp", timestamp (report_data self));
      ("maturity_level", maturityLevel (report_data self));
      ("percentage", str_of_int (percentage scores));
      ("total_score", str_of_int (total scores));
      ("level1_score", str_of_int (level1 scores));
      ("level2_score", str_of_int (level2 scores));
      ("level3_score", str_of_int (level3 scores));
      ("level4_score", str_of_int (level4 scores));
      ("level5_score", str_of_int (level5 scores));
      ("level1_pct", str_of_int level1_pct);
      ("level2_pct", str_of_int level2_pct);
      ("level3_pct", str_of_int level3_pct);
      ("level4_pct", str_of_int level4_pct);
      ("level5_pct", str_of_int level5_pct);
      ("recommendations", recommendations_html) ].

(** Two argument lists with the same keys in the same order and the
    same value at every key but [key]. *)
Definition differ_only_at (key : string) (kw1 kw2 : kwargs) : Prop :=
  map fst kw1 = map fst kw2 /\
  forall k : string, k <> key -> kw_lookup k kw1 = kw_lookup k kw2.

End Documents.


(** ** Properties of [str.format] *)

Section FormatProperties.
Import Py.

Lemma span_literal_length (s : string) :
  (String.length (snd (span_literal s)) <= String.length s)%nat.
Proof.
  induction s as [|c s IH]; simpl; [lia|].
  destruct (is_brace c); simpl; [lia|].
  destruct (span_literal s); simpl in *. lia.
Qed.

Lemma scan_field_name_length (s : string) :
  forall b n t r,
    scan_field_name b s = Ok (n, t, r) ->
    (String.length r < String.length s)%nat.
Proof.
  induction s as [|c s IH]; intros b n t r; simpl; [discriminate|].
  assert (Hcont : forall b',
    bind (scan_field_name b' s) (fun '(n, t, r) => Ok (String c n, t, r))
      = Ok (n, t, r) -> (String.length r < S (String.length s))%nat).
  { intros b' H. destruct (scan_field_name b' s) as [[[n' t'] r']|] eqn:E;
      [|discriminate]. simpl in H. injection H as _ _ <-.
    apply IH in E. lia. }
  destruct b; [apply Hcont|].
  destruct (Ascii.eqb c "{"); [discriminate|].
  destruct (Ascii.eqb c "["); [apply Hcont|].
  destruct (Ascii.eqb c "}" || Ascii.eqb c ":" || Ascii.eqb c "!");
    [|apply Hcont].
  intros H. injection H as _ _ <-. lia.
Qed.

Lemma scan_format_spec_length (s : string) :
  forall d spec r,
    scan_format_spec d s = Ok (spec, r) ->
    (String.length r < String.length s)%nat.
Proof.
  induction s as [|c s IH]; intros d spec r; simpl; [discriminate|].
  assert (Hcont : forall d',
    bind (scan_format_spec d' s) (fun '(spec, r) => Ok (String c spec, r))
      = Ok (spec, r) -> (String.length r < S (String.length s))%nat).
  { intros d' H. destruct (scan_format_spec d' s) as [[spec' r']|] eqn:E;
      [|discriminate]. simpl in H. injection H as _ <-.
    apply IH in E. lia. }
  destruct (Ascii.eqb c "{"); [apply Hcont|].
  destruct (Ascii.eqb c "}"); [|apply Hcont].
  destruct d; [|apply Hcont].
  intros H. injection H as _ <-. lia.
Qed.

Lemma parse_field_length (s : string) (f : field) (after : string) :
  parse_field s = Ok (f, after) ->
  (String.length after < String.length s)%nat.
Proof.
  unfold parse_field.
  destruct (scan_field_name false s) as [[[n t] r]|] eqn:E; [|discriminate].
  apply scan_field_name_length in E. simpl.
  destruct (Ascii.eqb t "}").
  { intros H. injection H as _ <-. exact E. }
  destruct (Ascii.eqb t "!").
  - destruct r as [|conv [|c r']]; [discriminate|discriminate|].
    destruct (Ascii.eqb c "}").
    { intros H. injection H as _ <-. simpl in E. lia. }
    destruct (Ascii.eqb c ":"); [|discriminate].
    destruct (scan_format_spec 0 r') as [[spec r'']|] eqn:E'; [|discriminate].
    apply scan_format_spec_length in E'. simpl.
    intros H. injection H as _ <-. simpl in E. lia.
  - destruct (scan_format_spec 0 r) as [[spec r']|] eqn:E'; [|discriminate].
    apply scan_format_spec_length in E'. simpl.
    intros H. injection H as _ <-. lia.
Qed.

(** The fuel that [format] gives is enough: the loop ends before it
    runs out. *)
Lemma format_from_enough (fuel : nat) :
  forall s kw, (String.length s < fuel)%nat -> format_from fuel s kw <> None.
Proof.
  induction fuel as [|fuel IH]; intros s kw Hlen; [lia|].
  simpl. pose proof (span_literal_length s) as Hspan.
  destruct (span_literal s) as [lit rest]. simpl in Hspan.
  destruct rest as [|c [|c' rest'']]; try discriminate.
  simpl in Hspan.
  assert (Hthen : forall mid after,
    (String.length after < fuel)%nat ->
    match format_from fuel after kw with
    | Some (Ok out) => Some (Ok (lit +:+ mid +:+ out))
    | Some (Raise e) => Some (Raise e)
    | None => None
    end <> None).
  { intros mid after Hafter. specialize (IH after kw Hafter).
    destruct (format_from fuel after kw) as [[?|?]|]; congruence. }
  destruct (Ascii.eqb c c'); [apply Hthen; lia|].
  destruct (Ascii.eqb c "}"); [discriminate|].
  destruct (parse_field (String c' rest'')) as [[f after]|] eqn:E;
    [|discriminate].
  apply parse_field_length in E. simpl in E.
  destruct (render_field f kw); [|discriminate].
  apply Hthen. lia.
Qed.

Lemma format_total (template : string) (kw : kwargs) :
  format_from (S (String.length template)) template kw
  = Some (format template kw).
Proof.
  unfold format.
  pose proof (format_from_enough (S (String.length template)) template kw) as H.
  destruct (format_from _ template kw); [reflexivity|].
  exfalso. apply H; [lia|reflexivity].
Qed.

(** A template whose first brace opens a field that cannot be
    rendered: nothing is substituted and the failure is raised. *)
Lemma format_raises_at_first_field
    (template lit rest after : string) (f : field) (kw : kwargs) (e : exn) :
  span_literal template = (lit, String "{" rest) ->
  parse_field rest = Ok (f, after) ->
  render_field f kw = Raise e ->
  format template kw = Raise e.
Proof.
  intros Hspan Hparse Hrender.
  unfold format. cbn [format_from]. rewrite Hspan.
  destruct rest as [|c' rest']; [discriminate Hparse|].
  destruct (Ascii.eqb "{" c') eqn:Hc.
  { apply Ascii.eqb_eq in Hc. subst c'. discriminate Hparse. }
  cbn [Ascii.eqb Bool.eqb]. rewrite Hparse, Hrender. reflexivity.
Qed.

Lemma render_field_missing (f : field) (kw : kwargs) (first more : string) :
  split_first (field_name f) = (first, more) ->
  first <> "" ->
  decimal 0 first = None ->
  kw_lookup first kw = None ->
  render_field f kw = Raise (Exn KeyError first).
Proof.
  intros Hsplit Hne Hdec Hkw. unfold render_field.
  rewrite Hsplit. destruct first as [|c first]; [congruence|].
  rewrite Hdec, Hkw. reflexivity.
Qed.

(** The style sheet at the head of either template is written with
    single braces, so its first rule is read as a replacement field
    named by the text up to the first colon; no keyword argument has
    that name. *)
Ltac first_field_missing template :=
  let sp := eval vm_compute in (span_literal template) in
  lazymatch sp with
  | (?lit, String _ ?rest) =>
      let parsed := eval vm_compute in (parse_field rest) in
      lazymatch parsed with
      | Ok (?f, ?after) =>
          apply (format_raises_at_first_field template lit rest after f);
          [ vm_compute; reflexivity
          | vm_compute; reflexivity
          | eapply render_field_missing;
            [ vm_compute; reflexivity | discriminate | reflexivity | ] ]
      end
  end.

Lemma maturity_template_field (kw : kwargs) :
  kw_lookup "
            font-family" kw = None ->
  format Maturity.html_template kw =
    Raise (Exn KeyError "
            font-family").
Proof.
  intros Hkw. first_field_missing Maturity.html_template. exact Hkw.
Qed.

Lemma security_template_field (kw : kwargs) :
  kw_lookup "
            background" kw = None ->
  format Security.html_template kw =
    Raise (Exn KeyError "
            background").
Proof.
  intros Hkw. first_field_missing Security.html_template. exact Hkw.
Qed.

End FormatProperties.

(** ** Properties of [scripts/generate-maturity-report.py] *)

Section MaturityProperties.
Import Py Maturity Spec.

Lemma append_assoc (s1 s2 s3 : string) :
  (s1 +:+ s2) +:+ s3 = s1 +:+ s2 +:+ s3.
Proof.
  induction s1 as [|c s1 IH]; [reflexivity|].
  change (String c ((s1 +:+ s2) +:+ s3) = String c (s1 +:+ s2 +:+ s3)).
  by rewrite IH.
Qed.

(** *** The recommendation engine *)

Lemma In_append_if (b : bool) (l : list string) (x y : string) :
  In x (if b then l ++ [y] else l) -> In x l \/ (b = true /\ x = y).
Proof.
  destruct b; [|tauto].
  rewrite in_app_iff. simpl. intuition.
Qed.

Lemma In_fallback (l : list string) (x : string) :
  In x (match l with [] => l ++ [fallback_recommendation] | _ => l end) ->
  In x l \/ (l = [] /\ x = fallback_recommendation).
Proof.
  destruct l as [|y l]; simpl; intuition.
Qed.

Ltac split_membership H :=
  repeat match type of H with
         | In _ (match _ with [] => _ | _ => _ end) =>
             apply In_fallback in H
         | In _ (if _ then _ ++ [_] else _) => apply In_append_if in H
         | In _ (_ ++ _) => apply in_app_iff in H
         | In _ (_ :: _) => destruct H as [H | H]
         | In _ [] => destruct H
         | _ \/ _ => destruct H as [H | H]
         | _ /\ _ => let H' := fresh "G" in destruct H as [H' H]
         end.

Ltac reflect_gate E :=
  try (apply andb_prop in E; destruct E as [E ?]);
  repeat match goal with
         | G : (_ <? _) = true |- _ => apply Z.ltb_lt in G
         | G : (_ >=? _) = true |- _ => apply Z.geb_le in G
         end.

Ltac not_in_level K :=
  cbv [level2_recommendations level3_recommendations
       level4_recommendations level5_recommendations In] in K;
  repeat (destruct K as [K | K]; try discriminate K);
  try contradiction.

(** C1.  A recommendation of a later maturity level is in the list
    only when the prerequisite score of the level before it is met and
    the level's own score is below its maximum: Level 2 needs
    [level1 >= 15] and [level2 < 35], Level 3 needs [level2 >= 25] and
    [level3 < 25], Level 4 needs [level3 >= 15] and [level4 < 15],
    Level 5 needs [level4 >= 10] and [level5 < 20]. *)
Theorem later_levels_are_gated (self : MaturityReportGenerator) (rec : string) :
  In rec (_generate_recommendations self) ->
  let s := scores (report_data self) in
  (In rec level2_recommendations -> level1 s >= 15 /\ level2 s < 35) /\
  (In rec level3_recommendations -> level2 s >= 25 /\ level3 s < 25) /\
  (In rec level4_recommendations -> level3 s >= 15 /\ level4 s < 15) /\
  (In rec level5_recommendations -> level4 s >= 10 /\ level5 s < 20).
Proof.
  intros H s. unfold _generate_recommendations in H. fold s in H.
  destruct (level1 s <? 20) eqn:E1;
  destruct ((level2 s <? 35) && (level1 s >=? 15)) eqn:E2;
  destruct ((level3 s <? 25) && (level2 s >=? 25)) eqn:E3;
  destruct ((level4 s <? 15) && (level3 s >=? 15)) eqn:E4;
  destruct ((level5 s <? 20) && (level4 s >=? 10)) eqn:E5;
  split_membership H; subst rec;
  reflect_gate E2; reflect_gate E3; reflect_gate E4; reflect_gate E5;
  (split; [|split; [|split]]); intros K; not_in_level K; lia.
Qed.

Lemma later_levels_are_gated_witness :
  In "Configure RBAC policies" (_generate_recommendations Sample.orchestrating) /\
  (level1 (scores (report_data Sample.orchestrating)) >= 15 /\
   level2 (scores (report_data Sample.orchestrating)) < 35).
Proof.
  assert (H : In "Configure RBAC policies"
                 (_generate_recommendations Sample.orchestrating)).
  { vm_compute. auto 10. }
  split; [exact H|].
  apply (proj1 (later_levels_are_gated Sample.orchestrating _ H)).
  vm_compute. auto 10.
Defined.

(** *** Percentages *)

Lemma displayed_percentage_ok_all :
  forallb (fun maximum =>
             forallb (displayed_percentage_ok maximum) (upto maximum))
          category_maximums = true.
Proof. vm_compute. reflexivity. Qed.

Lemma In_upto (n z : Z) : 0 <= z <= n -> In z (upto n).
Proof.
  intros Hz. unfold upto. apply in_map_iff.
  exists (Z.to_nat z). split; [lia|]. apply in_seq. lia.
Qed.

Lemma level_pct_in_range (maximum score : Z) :
  In maximum category_maximums ->
  0 <= score <= maximum ->
  exists (x : float) (n : Z),
    level_pct score maximum = Ok x /\
    round x = Ok n /\
    format_0f x = str_of_int n /\
    nearest_percentage score maximum n /\
    0 <= n <= 100.
Proof.
  intros Hmax Hscore.
  pose proof displayed_percentage_ok_all as Hall.
  rewrite forallb_forall in Hall. specialize (Hall maximum Hmax).
  rewrite forallb_forall in Hall. specialize (Hall score (In_upto _ _ Hscore)).
  unfold displayed_percentage_ok in Hall.
  destruct (level_pct score maximum) as [x|] eqn:Hx; [|discriminate].
  destruct (round x) as [n|] eqn:Hn; [|discriminate].
  apply andb_prop in Hall as [Hall H100].
  apply andb_prop in Hall as [Hall H0].
  apply andb_prop in Hall as [Hfmt Hnear].
  exists x, n.
  split; [reflexivity|]. split; [exact Hn|].
  split; [by apply String.eqb_eq|].
  split; [unfold nearest_percentage|]; lia.
Qed.

Lemma level_pct_never_divides_by_zero (maximum score : Z) (e : exn) :
  maximum <> 0 ->
  level_pct score maximum = Raise e ->
  exn_cls e = OverflowError.
Proof.
  intros Hmax. unfold level_pct, int_truediv.
  destruct (Z.eqb_spec maximum 0) as [|_]; [contradiction|].
  destruct (is_infinite _).
  - cbn. intros [= <-]. reflexivity.
  - cbn [mbind result_bind bind]. unfold float_mul_int. discriminate.
Qed.

(** *** All scores at their maximum *)

Lemma level_pct_full (maximum : Z) :
  In maximum category_maximums ->
  exists x,
    level_pct maximum maximum = Ok x /\ format_0f x = "100" /\ round x = Ok 100.
Proof.
  unfold category_maximums. simpl.
  intros [<-|[<-|[<-|[<-|[<-|[]]]]]]; eexists; vm_compute; eauto.
Qed.

(** C2.  When the five level scores equal their maximums, the only
    recommendation is the fallback message and every level row of the
    Markdown score table shows 100%; the Total row repeats the total
    and the percentage stored in the record. *)
Theorem all_maximum_scores (self : MaturityReportGenerator) :
  let s := scores (report_data self) in
  level1 s = 20 -> level2 s = 35 -> level3 s = 25 ->
  level4 s = 15 -> level5 s = 20 ->
  _generate_recommendations self = [fallback_recommendation] /\
  generate_markdown_report self =
    Ok ("# Cloud Native Maturity Assessment Report

**Project**: Gunj Operator  
**Generated**: " +:+
     timestamp (report_data self) +:+
     "  
**Maturity Level**: " +:+
     maturityLevel (report_data self) +:+
     "  

## Executive Summary

The Gunj Operator project has achieved a maturity score of **" +:+
     str_of_int (total (scores (report_data self))) +:+
     "/115** (" +:+
     str_of_int (percentage (scores (report_data self))) +:+
     "%), 
placing it at **" +:+
     maturityLevel (report_data self) +:+
     "**.

## Score Breakdown

| Level | Description | Score | Max | Percentage |
|-------|-------------|-------|-----|------------|
| 1 | Containerization | 20 | 20 | 100% |
| 2 | Dynamic Orchestration | 35 | 35 | 100% |
| 3 | Microservices Oriented | 25 | 25 | 100% |
| 4 | Cloud Native Services | 15 | 15 | 100% |
| 5 | Cloud Native Operations | 20 | 20 | 100% |
| **Total** | | **" +:+
     str_of_int (total (scores (report_data self))) +:+
     "** | **115** | **" +:+
     str_of_int (percentage (scores (report_data self))) +:+
     "%** |

## Recommendations

1. Excellent! Continue maintaining high standards and consider contributing to CNCF

## Next Steps

1. Address the recommendations above in priority order
2. Re-run the assessment after implementing changes
3. Track progress over time using the maturity dashboard
4. Share results with stakeholders and team members

---

*This report was automatically generated by the Cloud Native Maturity Assessment tool.*
").
Proof.
  destruct self as [af [ts pj [t p l1 l2 l3 l4 l5] ml]].
  intros s H1 H2 H3 H4 H5. subst s.
  cbn [scores report_data level1 level2 level3 level4 level5] in *. subst.
  split; [reflexivity|].
  unfold generate_markdown_report.
  cbn [scores report_data total percentage level1 level2 level3 level4 level5
       timestamp maturityLevel].
  destruct (level_pct_full 20) as (x20 & E20 & F20 & _); [cbv; tauto|].
  destruct (level_pct_full 35) as (x35 & E35 & F35 & _); [cbv; tauto|].
  destruct (level_pct_full 25) as (x25 & E25 & F25 & _); [cbv; tauto|].
  destruct (level_pct_full 15) as (x15 & E15 & F15 & _); [cbv; tauto|].
  rewrite E20, E35, E25, E15.
  change (_generate_recommendations _) with [fallback_recommendation].
  cbn [mbind result_bind bind mret result_ret enumerate fold_left].
  rewrite F20, F35, F25, F15.
  f_equal. rewrite !append_assoc. reflexivity.
Qed.

(** The record of the specification's example: the six rows of the
    score table, the Total row included, show 100%. *)
Lemma all_maximum_scores_witness :
  _generate_recommendations Sample.exemplary = [fallback_recommendation] /\
  exists doc,
    generate_markdown_report Sample.exemplary = Ok doc /\
    firstn 6 (skipn 15 (lines doc)) =
      [ "| 1 | Containerization | 20 | 20 | 100% |";
        "| 2 | Dynamic Orchestration | 35 | 35 | 100% |";
        "| 3 | Microservices Oriented | 25 | 25 | 100% |";
        "| 4 | Cloud Native Services | 15 | 15 | 100% |";
        "| 5 | Cloud Native Operations | 20 | 20 | 100% |";
        "| **Total** | | **115** | **115** | **100%** |" ].
Proof.
  destruct (all_maximum_scores Sample.exemplary
              eq_refl eq_refl eq_refl eq_refl eq_refl) as [Hrec Hdoc].
  split; [exact Hrec|].
  eexists. split; [exact Hdoc|].
  vm_compute. reflexivity.
Defined.

(** *** Loading *)

(** C5.  When the path does not exist the loader returns the all-zero
    default record, stamped with the clock, and does not raise. *)
Theorem missing_file_gives_default_record
    (utcnow : string) (fs : disk) (assessment_file : string) :
  fs assessment_file = None ->
  _load_assessment_data utcnow fs assessment_file =
    Ok {| timestamp := utcnow +:+ "Z";
          project := "gunj-operator";
          scores := {| total := 0; percentage := 0;
                       level1 := 0; level2 := 0; level3 := 0;
                       level4 := 0; level5 := 0 |};
          maturityLevel := "0 - Traditional" |}.
Proof.
  intros Hmissing. unfold _load_assessment_data. by rewrite Hmissing.
Qed.

Lemma missing_file_gives_default_record_witness :
  _load_assessment_data Sample.clock Sample.empty_directory
    "maturity-assessment-report.json" =
    Ok (mkReportData "2024-05-01T12:00:00Z" "gunj-operator"
          (mkScores 0 0 0 0 0 0 0) "0 - Traditional").
Proof.
  apply (missing_file_gives_default_record Sample.clock Sample.empty_directory).
  reflexivity.
Defined.

Lemma malformed_file_propagates
    (utcnow : string) (fs : disk) (assessment_file msg : string) :
  fs assessment_file = Some (NotJSON msg) ->
  _load_assessment_data utcnow fs assessment_file =
    Raise (Exn JSONDecodeError msg).
Proof.
  intros Hfile. unfold _load_assessment_data. by rewrite Hfile.
Qed.

(** *** The HTML report *)

(** The HTML report is never produced: the percentages are computed,
    or overflow, and then the template fails. *)
Lemma html_report_raises (self : MaturityReportGenerator) :
  returned (generate_html_report self) = false.
Proof.
  unfold generate_html_report.
  repeat match goal with
         | |- returned (mbind _ ?r) = false =>
             destruct r; [cbn [mbind result_bind bind]|reflexivity]
         end.
  rewrite maturity_template_field; reflexivity.
Qed.

Lemma html_report_KeyError (self : MaturityReportGenerator) :
  let s := scores (report_data self) in
  0 <= level1 s <= 20 -> 0 <= level2 s <= 35 -> 0 <= level3 s <= 25 ->
  0 <= level4 s <= 15 -> 0 <= level5 s <= 20 ->
  generate_html_report self =
    Raise (Exn KeyError "
            font-family").
Proof.
  intros s H1 H2 H3 H4 H5. unfold generate_html_report. fold s.
  destruct (level_pct_in_range 20 (level1 s)) as (x1 & n1 & -> & R1 & _);
    [cbv; tauto|exact H1|].
  destruct (level_pct_in_range 35 (level2 s)) as (x2 & n2 & -> & R2 & _);
    [cbv; tauto|exact H2|].
  destruct (level_pct_in_range 25 (level3 s)) as (x3 & n3 & -> & R3 & _);
    [cbv; tauto|exact H3|].
  destruct (level_pct_in_range 15 (level4 s)) as (x4 & n4 & -> & R4 & _);
    [cbv; tauto|exact H4|].
  destruct (level_pct_in_range 20 (level5 s)) as (x5 & n5 & -> & R5 & _);
    [cbv; tauto|exact H5|].
  cbn [mbind result_bind bind]. rewrite R1, R2, R3, R4, R5.
  cbn [mbind result_bind bind].
  apply maturity_template_field. reflexivity.
Qed.

(** Nothing is written by a run: [save_reports] stops at the HTML
    report. *)
Lemma save_reports_writes_nothing (self : MaturityReportGenerator) :
  exists e, save_reports self = (mkEffects [] [], Raise e).
Proof.
  unfold save_reports. pose proof (html_report_raises self) as H.
  destruct (generate_html_report self) as [html|e]; [discriminate|eauto].
Qed.

(** The run of the specification's example: the HTML report fails
    and neither file is written. *)
Lemma exemplary_run :
  main Sample.clock Sample.exemplary_directory =
    (mkEffects [] [],
     Raise (Exn KeyError "
            font-family")).
Proof.
  unfold main, __init__, _load_assessment_data. cbn.
  unfold save_reports.
  rewrite html_report_KeyError; [reflexivity|cbn; lia..].
Qed.

End MaturityProperties.

(** ** Properties of [scripts/generate-security-dashboard.py] *)

Section SecurityProperties.
Import Py Security Spec.

(** *** Counting by severity *)

Lemma sum_values_insert (m : gmap string Z) (k : string) (v : Z) :
  m !! k = None -> sum_values (<[k := v]> m) = sum_values m + v.
Proof.
  intros Hk. unfold sum_values.
  rewrite map_fold_insert_L; [reflexivity| |exact Hk].
  intros. lia.
Qed.

Lemma sum_values_tiers (a b c d : Z) : sum_values (tiers a b c d) = a + b + c + d.
Proof.
  unfold tiers.
  rewrite !sum_values_insert by (by simplify_map_eq).
  unfold sum_values. rewrite map_fold_empty. lia.
Qed.

Lemma tiers_lookup (a b c d : Z) :
  tiers a b c d !! "critical" = Some a /\
  tiers a b c d !! "high" = Some b /\
  tiers a b c d !! "medium" = Some c /\
  tiers a b c d !! "low" = Some d.
Proof. unfold tiers. repeat split; by simplify_map_eq. Qed.

Lemma count_vulnerability_tiers (a b c d : Z) (vuln : Vulnerability) :
  count_vulnerability (tiers a b c d) vuln =
    let k := severity_key vuln in
    if decide (k = "critical") then tiers (a + 1) b c d
    else if decide (k = "high") then tiers a (b + 1) c d
    else if decide (k = "medium") then tiers a b (c + 1) d
    else if decide (k = "low") then tiers a b c (d + 1)
    else tiers a b c d.
Proof.
  unfold count_vulnerability. fold (severity_key vuln).
  generalize (severity_key vuln). intros k. cbv zeta.
  unfold tiers.
  repeat case_decide; subst; by simplify_map_eq.
Qed.

Lemma count_in_cons (tier : string) (vuln : Vulnerability) (l : list Vulnerability) :
  count_in tier (vuln :: l) =
    (if decide (severity_key vuln = tier) then 1 else 0) + count_in tier l.
Proof.
  unfold count_in. rewrite filter_cons.
  case_decide; simpl; lia.
Qed.

Lemma fold_count_vulnerability (l : list Vulnerability) :
  forall a b c d,
    fold_left count_vulnerability l (tiers a b c d) =
      tiers (a + count_in "critical" l) (b + count_in "high" l)
            (c + count_in "medium" l) (d + count_in "low" l).
Proof.
  induction l as [|vuln l IH]; intros a b c d.
  - unfold count_in. simpl. f_equal; lia.
  - simpl. rewrite count_vulnerability_tiers. cbv zeta.
    rewrite !count_in_cons.
    repeat case_decide; try congruence; rewrite IH; f_equal; lia.
Qed.

Lemma process_trivy_all_entries (m : gmap string Z) (trivy_data : TrivyData) :
  process_trivy m trivy_data =
    fold_left count_vulnerability (all_entries trivy_data) m.
Proof.
  unfold process_trivy, all_entries.
  generalize (default [] (Results trivy_data)). intros results.
  revert m. induction results as [|result results IH]; intros m; simpl.
  - reflexivity.
  - rewrite fold_left_app. apply IH.
Qed.


Lemma collect_with_trivy (timestamp : datetime) (st : state) (trivy_data : TrivyData) :
  trivy_results_json (fs st) = Some (JSON trivy_data) ->
  collect_vulnerability_metrics timestamp st =
    (store_metrics (metrics_of timestamp (all_entries trivy_data)) st,
     Ok (metrics_of timestamp (all_entries trivy_data))).
Proof.
  intros Hfile. unfold collect_vulnerability_metrics.
  cbv [mbind M_bind get_fs]. rewrite Hfile.
  cbv [mbind M_bind lift json_load mret M_ret get_results set_results
       vulnerabilities scanning].
  rewrite process_trivy_all_entries.
  change (<["critical":=0]> (<["high":=0]> (<["medium":=0]> (<["low":=0]> ∅))))
    with (tiers 0 0 0 0).
  rewrite fold_count_vulnerability.
  reflexivity.
Qed.

Lemma collect_without_trivy (timestamp : datetime) (st : state) :
  trivy_results_json (fs st) = None ->
  collect_vulnerability_metrics timestamp st =
    (store_metrics (metrics_of timestamp []) st, Ok (metrics_of timestamp [])).
Proof.
  intros Hfile. unfold collect_vulnerability_metrics.
  cbv [mbind M_bind get_fs]. rewrite Hfile. reflexivity.
Qed.

Lemma collect_malformed_trivy (timestamp : datetime) (st : state) (msg : string) :
  trivy_results_json (fs st) = Some (NotJSON msg) ->
  collect_vulnerability_metrics timestamp st =
    (st, Raise (Exn JSONDecodeError msg)).
Proof.
  intros Hfile. unfold collect_vulnerability_metrics.
  cbv [mbind M_bind get_fs]. rewrite Hfile. reflexivity.
Qed.

(** The total of the dashboard is the sum of the four tiers it shows,
    after every collection that returns. *)
Lemma total_is_sum_of_tiers (timestamp : datetime) (st st' : state) (metrics : Metrics) :
  collect_vulnerability_metrics timestamp st = (st', Ok metrics) ->
  dashboard_total_vulns (results st') =
    shown (results st') "critical" + shown (results st') "high" +
    shown (results st') "medium" + shown (results st') "low".
Proof.
  intros Hrun.
  assert (exists l, st' = store_metrics (metrics_of timestamp l) st) as [l ->].
  { destruct (trivy_results_json (fs st)) as [[trivy_data|msg]|] eqn:Hfile.
    - rewrite (collect_with_trivy _ _ _ Hfile) in Hrun.
      injection Hrun as <- _. eauto.
    - rewrite (collect_malformed_trivy _ _ _ Hfile) in Hrun. discriminate.
    - rewrite (collect_without_trivy _ _ Hfile) in Hrun.
      injection Hrun as <- _. eauto. }
  unfold dashboard_total_vulns, shown, vulnerability_counts.
  cbn [store_metrics results results_vulnerabilities fmap option_fmap option_map
       default from_option id metrics_of vulnerabilities].
  rewrite sum_values_tiers.
  destruct (tiers_lookup (count_in "critical" l) (count_in "high" l)
                         (count_in "medium" l) (count_in "low" l))
    as (-> & -> & -> & ->).
  reflexivity.
Qed.

(** C4.  Trivy input whose entries are exactly one [CRITICAL] and one
    [LOW], in any order and in any arrangement into scan results:
    the collected counters are critical 1, low 1, high 0, medium 0,
    and the total of the dashboard is the sum of the four tiers, 2. *)
Theorem one_critical_one_low
    (timestamp : datetime) (st : state) (trivy_data : TrivyData) :
  trivy_results_json (fs st) = Some (JSON trivy_data) ->
  all_entries trivy_data ≡ₚ
    [ mkVulnerability (Some "CRITICAL"); mkVulnerability (Some "LOW") ] ->
  exists (st' : state) (metrics : Metrics),
    collect_vulnerability_metrics timestamp st = (st', Ok metrics) /\
    vulnerabilities metrics !! "critical" = Some 1 /\
    vulnerabilities metrics !! "low" = Some 1 /\
    vulnerabilities metrics !! "high" = Some 0 /\
    vulnerabilities metrics !! "medium" = Some 0 /\
    results_vulnerabilities (results st') = Some metrics /\
    dashboard_total_vulns (results st') =
      shown (results st') "critical" + shown (results st') "high" +
      shown (results st') "medium" + shown (results st') "low" /\
    dashboard_total_vulns (results st') = 2.
Proof.
  intros Hfile Hperm.
  pose proof (collect_with_trivy timestamp st trivy_data Hfile) as Hrun.
  eexists _, _. split; [exact Hrun|].
  assert (Hcount : forall tier,
    count_in tier (all_entries trivy_data) =
    count_in tier [ mkVulnerability (Some "CRITICAL"); mkVulnerability (Some "LOW") ]).
  { intros tier. unfold count_in. by rewrite Hperm. }
  assert (Hmap : vulnerabilities (metrics_of timestamp (all_entries trivy_data))
                 = tiers 1 0 0 1).
  { unfold metrics_of. cbn [vulnerabilities]. rewrite !Hcount. reflexivity. }
  rewrite Hmap.
  destruct (tiers_lookup 1 0 0 1) as (-> & -> & -> & ->).
  repeat (split; [reflexivity|]).
  split; [exact (total_is_sum_of_tiers _ _ _ _ Hrun)|].
  unfold dashboard_total_vulns, vulnerability_counts.
  cbn [store_metrics results results_vulnerabilities fmap option_fmap option_map
       default from_option id].
  rewrite Hmap, sum_values_tiers. reflexivity.
Qed.

Lemma one_critical_one_low_witness :
  exists (st' : state) (metrics : Metrics),
    collect_vulnerability_metrics Sample.now
      (Sample.fresh (mkDisk None (Some (JSON Sample.critical_and_low_scan))))
      = (st', Ok metrics) /\
    vulnerabilities metrics !! "critical" = Some 1 /\
    vulnerabilities metrics !! "low" = Some 1 /\
    vulnerabilities metrics !! "high" = Some 0 /\
    vulnerabilities metrics !! "medium" = Some 0 /\
    results_vulnerabilities (results st') = Some metrics /\
    dashboard_total_vulns (results st') =
      shown (results st') "critical" + shown (results st') "high" +
      shown (results st') "medium" + shown (results st') "low" /\
    dashboard_total_vulns (results st') = 2.
Proof.
  apply (one_critical_one_low Sample.now
           (Sample.fresh (mkDisk None (Some (JSON Sample.critical_and_low_scan))))
           Sample.critical_and_low_scan).
  - reflexivity.
  - reflexivity.
Defined.

(** C10.  An entry without a [Severity] key is counted as low; an
    entry whose lowercased severity is not one of the four tiers, such
    as [UNKNOWN], changes no counter; so the total can be smaller than
    the number of entries: for one [UNKNOWN] entry and one entry
    without the key it is 1 for 2 entries. *)
Theorem unrecognised_severity_is_not_counted (a b c d : Z) :
  count_vulnerability (tiers a b c d) (mkVulnerability None)
    = tiers a b c (d + 1) /\
  (forall severity : string,
      ~ In (lower severity) tier_names ->
      count_vulnerability (tiers a b c d) (mkVulnerability (Some severity))
        = tiers a b c d) /\
  count_vulnerability (tiers a b c d) (mkVulnerability (Some "UNKNOWN"))
    = tiers a b c d /\
  (forall (timestamp : datetime) (st : state),
      trivy_results_json (fs st) = Some (JSON Sample.unknown_scan) ->
      exists (st' : state) (metrics : Metrics),
        collect_vulnerability_metrics timestamp st = (st', Ok metrics) /\
        vulnerabilities metrics = tiers 0 0 0 1 /\
        dashboard_total_vulns (results st') = 1 /\
        length (all_entries Sample.unknown_scan) = 2%nat /\
        dashboard_total_vulns (results st')
          < Z.of_nat (length (all_entries Sample.unknown_scan))).
Proof.
  assert (Hother : forall severity : string,
    ~ In (lower severity) tier_names ->
    count_vulnerability (tiers a b c d) (mkVulnerability (Some severity))
      = tiers a b c d).
  { intros severity Hnot. rewrite count_vulnerability_tiers. cbv zeta.
    unfold severity_key. cbn [Severity default from_option id].
    unfold tier_names in Hnot. simpl in Hnot.
    repeat case_decide; try reflexivity; exfalso; apply Hnot; auto. }
  split; [by rewrite count_vulnerability_tiers|].
  split; [exact Hother|].
  split; [apply Hother; vm_compute; intuition discriminate|].
  intros timestamp st Hfile.
  pose proof (collect_with_trivy timestamp st _ Hfile) as Hrun.
  eexists _, _. split; [exact Hrun|].
  assert (Hmap : vulnerabilities (metrics_of timestamp (all_entries Sample.unknown_scan))
                 = tiers 0 0 0 1) by reflexivity.
  split; [exact Hmap|].
  assert (Htotal : dashboard_total_vulns
            (results (store_metrics
               (metrics_of timestamp (all_entries Sample.unknown_scan)) st)) = 1).
  { unfold dashboard_total_vulns, vulnerability_counts.
    cbn [store_metrics results results_vulnerabilities fmap option_fmap
         option_map default from_option id].
    rewrite Hmap, sum_values_tiers. reflexivity. }
  rewrite Htotal. repeat split; reflexivity.
Qed.

Lemma unrecognised_severity_is_not_counted_witness :
  count_vulnerability (tiers 0 0 0 0) (mkVulnerability (Some "Negligible"))
    = tiers 0 0 0 0.
Proof.
  apply (proj1 (proj2 (unrecognised_severity_is_not_counted 0 0 0 0))).
  vm_compute. intuition discriminate.
Defined.

(** *** The assessment step *)

Lemma default_assessment_summary :
  exists m, summary default_assessment = Some m /\
    m !! "total_score" = Some 0 /\
    m !! "max_score" = Some 100 /\
    m !! "percentage" = Some 0.
Proof. eexists. split; [reflexivity|]. repeat split; by simplify_map_eq. Qed.

Lemma run_security_assessment_caught
    (script : disk -> run_outcome) (st : state) (e : exn) (after : disk) :
  script (fs st) = Failed e after ->
  is_Exception (exn_cls e) = true ->
  run_security_assessment script st =
    (absorbed e after st, Ok (results (absorbed e after st))).
Proof.
  intros Hrun Hcls. unfold run_security_assessment.
  cbv [mbind M_bind print try_except subprocess_run fs results stdout written
       get_results set_results].
  destruct st as [r d out w]. cbn [fs] in Hrun. rewrite Hrun, Hcls.
  unfold absorbed, store_assessment, default_assessment.
  cbn [results fs stdout written]. rewrite <- app_assoc. reflexivity.
Qed.

Lemma run_security_assessment_uncaught
    (script : disk -> run_outcome) (st : state) (e : exn) (after : disk) :
  script (fs st) = Failed e after ->
  is_Exception (exn_cls e) = false ->
  run_security_assessment script st = (assessed None after st, Raise e).
Proof.
  intros Hrun Hcls. unfold run_security_assessment.
  cbv [mbind M_bind print try_except subprocess_run fs results stdout written
       get_results set_results].
  destruct st as [r d out w]. cbn [fs] in Hrun. rewrite Hrun, Hcls.
  reflexivity.
Qed.

Lemma run_security_assessment_completed
    (script : disk -> run_outcome) (st : state) (returncode : Z) (after : disk) :
  script (fs st) = Completed returncode after ->
  run_security_assessment script st =
    match security_assessment_report_json after with
    | None => (assessed None after st, Ok (results st))
    | Some (JSON doc) =>
        (assessed (Some doc) after st, Ok (store_assessment doc (results st)))
    | Some (NotJSON msg) =>
        (absorbed (Exn JSONDecodeError msg) after st,
         Ok (results (absorbed (Exn JSONDecodeError msg) after st)))
    end.
Proof.
  intros Hrun. unfold run_security_assessment.
  cbv [mbind M_bind print try_except subprocess_run fs results stdout written
       get_results set_results get_fs lift mret M_ret].
  destruct st as [r d out w]. cbn [fs] in Hrun. rewrite Hrun.
  destruct (security_assessment_report_json after) as [[doc|msg]|];
    cbn [json_load raise is_Exception exn_cls];
    unfold absorbed, assessed, store_assessment, default_assessment;
    cbn [results fs stdout written str_exn exn_arg];
    rewrite <- ?app_assoc; reflexivity.
Qed.

(** C7, as stated, fails: a script that exits with status 1 and
    leaves no report raises nothing; no failure is logged and no
    default record is stored. *)
Lemma exit_status_is_not_a_failure :
  subprocess_failed (Sample.exits_with 1 (fs (Sample.fresh Sample.no_files))) /\
  run_security_assessment (Sample.exits_with 1) (Sample.fresh Sample.no_files) =
    (mkState (mkResults None None None) Sample.no_files
             ["Running security assessment..."] [],
     Ok (mkResults None None None)) /\
  ~ every_failure_is_absorbed.
Proof.
  assert (Hrun :
    run_security_assessment (Sample.exits_with 1) (Sample.fresh Sample.no_files) =
      (mkState (mkResults None None None) Sample.no_files
               ["Running security assessment..."] [],
       Ok (mkResults None None None))) by reflexivity.
  assert (Hfailed :
    subprocess_failed (Sample.exits_with 1 (fs (Sample.fresh Sample.no_files))))
    by (cbn; lia).
  split; [exact Hfailed|]. split; [exact Hrun|].
  intros Hevery.
  destruct (Hevery _ _ Hfailed) as (st' & msg & Hrun' & Hdefault & _).
  rewrite Hrun in Hrun'. injection Hrun' as <- _.
  discriminate Hdefault.
Qed.

(** C7, amended.  When the subprocess call raises an exception that
    derives from [Exception], it is caught, printed after
    [Error running assessment:], and the zero-valued default record is
    stored; the run goes on.  An exit status, zero or not, raises
    nothing: the report is loaded if the file exists, and otherwise no
    assessment record is stored.  An exception outside [Exception]
    is not caught.  A report that is not valid JSON makes the load
    raise inside the same [try] block, with the same outcome as a
    failed call. *)
Theorem raised_failures_are_absorbed
    (script : disk -> run_outcome) (st : state) :
  (forall (e : exn) (after : disk),
      script (fs st) = Failed e after ->
      is_Exception (exn_cls e) = true ->
      run_security_assessment script st =
        (absorbed e after st, Ok (results (absorbed e after st))) /\
      results_assessment (results (absorbed e after st)) =
        Some default_assessment /\
      In ("Error running assessment: " +:+ str_exn e)
         (stdout (absorbed e after st))) /\
  (forall (returncode : Z) (after : disk),
      script (fs st) = Completed returncode after ->
      security_assessment_report_json after = None ->
      run_security_assessment script st =
        (assessed None after st, Ok (results st))) /\
  (forall (returncode : Z) (after : disk) (doc : Assessment),
      script (fs st) = Completed returncode after ->
      security_assessment_report_json after = Some (JSON doc) ->
      run_security_assessment script st =
        (assessed (Some doc) after st, Ok (store_assessment doc (results st)))) /\
  (forall (e : exn) (after : disk),
      script (fs st) = Failed e after ->
      is_Exception (exn_cls e) = false ->
      run_security_assessment script st = (assessed None after st, Raise e)) /\
  (forall (returncode : Z) (after : disk) (msg : string),
      script (fs st) = Completed returncode after ->
      security_assessment_report_json after = Some (NotJSON msg) ->
      run_security_assessment script st =
        (absorbed (Exn JSONDecodeError msg) after st,
         Ok (results (absorbed (Exn JSONDecodeError msg) after st)))).
Proof.
  split; [|split; [|split; [|split]]].
  - intros e after Hrun Hcls.
    split; [exact (run_security_assessment_caught _ _ _ _ Hrun Hcls)|].
    split; [reflexivity|].
    unfold absorbed. cbn [stdout]. apply in_app_iff. right. simpl. auto.
  - intros returncode after Hrun Hnone.
    rewrite (run_security_assessment_completed _ _ _ _ Hrun), Hnone.
    reflexivity.
  - intros returncode after doc Hrun Hdoc.
    rewrite (run_security_assessment_completed _ _ _ _ Hrun), Hdoc.
    reflexivity.
  - intros e after Hrun Hcls.
    exact (run_security_assessment_uncaught _ _ _ _ Hrun Hcls).
  - intros returncode after msg Hrun Hfile.
    rewrite (run_security_assessment_completed _ _ _ _ Hrun), Hfile.
    reflexivity.
Qed.

(** A script that exits with status 1 but has left a report: the
    report is loaded as after any other run. *)
Lemma report_is_loaded_whatever_the_status :
  results_assessment
    (results (fst (run_security_assessment (Sample.exits_with 1)
                     (Sample.fresh Sample.valid_report)))) =
    Some (mkAssessment (Some (<["percentage" := 72]> ∅))).
Proof. reflexivity. Qed.

Lemma raised_failures_are_absorbed_witness :
  run_security_assessment Sample.cannot_start (Sample.fresh Sample.no_files) =
    (mkState (mkResults (Some default_assessment) None None) Sample.no_files
       [ "Running security assessment...";
         "Error running assessment: [Errno 2] No such file or directory: './hack/security-assessment.sh'" ]
       [],
     Ok (mkResults (Some default_assessment) None None)).
Proof.
  exact (proj1 (proj1 (raised_failures_are_absorbed Sample.cannot_start
                         (Sample.fresh Sample.no_files))
                  _ _ eq_refl eq_refl)).
Defined.

(** *** Invalid JSON *)

(** C6, as stated, fails: an assessment report that is not valid JSON
    makes [json.load] raise inside the [try] block, where the failure
    is caught like any other and the default record is stored. *)
Lemma malformed_report_is_absorbed :
  security_assessment_report_json Sample.malformed_report =
    Some (NotJSON "Expecting value: line 1 column 1 (char 0)") /\
  run_security_assessment (Sample.exits_with 0)
                          (Sample.fresh Sample.malformed_report) =
    (mkState (mkResults (Some default_assessment) None None)
       Sample.malformed_report
       [ "Running security assessment...";
         "Error running assessment: Expecting value: line 1 column 1 (char 0)" ]
       [],
     Ok (mkResults (Some default_assessment) None None)) /\
  ~ malformed_json_always_propagates.
Proof.
  assert (Hrun :
    run_security_assessment (Sample.exits_with 0)
                            (Sample.fresh Sample.malformed_report) =
      (mkState (mkResults (Some default_assessment) None None)
         Sample.malformed_report
         [ "Running security assessment...";
           "Error running assessment: Expecting value: line 1 column 1 (char 0)" ]
         [],
       Ok (mkResults (Some default_assessment) None None))) by reflexivity.
  split; [reflexivity|]. split; [exact Hrun|].
  intros (_ & Hevery & _).
  specialize (Hevery (Sample.exits_with 0) (Sample.fresh Sample.malformed_report)
                     0 Sample.malformed_report _ eq_refl eq_refl).
  rewrite Hrun in Hevery. discriminate Hevery.
Qed.

(** C6, amended.  Invalid JSON in the maturity assessment file or in
    the Trivy results file makes the load raise, and nothing handles
    it: no record is substituted.  Invalid JSON in the security
    assessment report is caught by [run_security_assessment], printed,
    and replaced by the default record. *)
Theorem malformed_json_propagation :
  (forall (utcnow : string) (fs : Maturity.disk) (assessment_file msg : string),
      fs assessment_file = Some (NotJSON msg) ->
      Maturity._load_assessment_data utcnow fs assessment_file =
        Raise (Exn JSONDecodeError msg) /\
      Maturity.__init__ utcnow fs assessment_file =
        Raise (Exn JSONDecodeError msg)) /\
  (forall (utcnow : string) (fs : Maturity.disk) (msg : string),
      fs "maturity-assessment-report.json" = Some (NotJSON msg) ->
      Maturity.main utcnow fs =
        (Maturity.mkEffects [] [], Raise (Exn JSONDecodeError msg))) /\
  (forall (timestamp : datetime) (st : state) (msg : string),
      trivy_results_json (fs st) = Some (NotJSON msg) ->
      collect_vulnerability_metrics timestamp st =
        (st, Raise (Exn JSONDecodeError msg))) /\
  (forall (script : disk -> run_outcome) (st : state)
          (returncode : Z) (after : disk) (msg : string),
      script (fs st) = Completed returncode after ->
      security_assessment_report_json after = Some (NotJSON msg) ->
      run_security_assessment script st =
        (absorbed (Exn JSONDecodeError msg) after st,
         Ok (results (absorbed (Exn JSONDecodeError msg) after st)))).
Proof.
  split; [|split; [|split]].
  - intros utcnow fs0 assessment_file msg Hfile.
    unfold Maturity.__init__.
    rewrite (malformed_file_propagates _ _ _ _ Hfile). split; reflexivity.
  - intros utcnow fs0 msg Hfile. unfold Maturity.main, Maturity.__init__.
    rewrite (malformed_file_propagates _ _ _ _ Hfile). reflexivity.
  - intros timestamp st msg Hfile.
    exact (collect_malformed_trivy _ _ _ Hfile).
  - intros script st returncode after msg Hrun Hfile.
    rewrite (run_security_assessment_completed _ _ _ _ Hrun), Hfile.
    reflexivity.
Qed.

Lemma malformed_json_propagation_witness :
  Maturity.main Sample.clock Sample.malformed_directory =
    (Maturity.mkEffects [] [],
     Raise (Exn JSONDecodeError "Expecting value: line 1 column 1 (char 0)")) /\
  collect_vulnerability_metrics Sample.now (Sample.fresh Sample.malformed_trivy) =
    (Sample.fresh Sample.malformed_trivy,
     Raise (Exn JSONDecodeError "Expecting value: line 1 column 1 (char 0)")).
Proof.
  split.
  - exact (proj1 (proj2 malformed_json_propagation)
             Sample.clock Sample.malformed_directory _ eq_refl).
  - exact (proj1 (proj2 (proj2 malformed_json_propagation))
             Sample.now (Sample.fresh Sample.malformed_trivy) _ eq_refl).
Defined.

(** *** Compliance and the dashboard *)

Lemma generate_compliance_report_constant (st : state) :
  generate_compliance_report st =
    (store_compliance constant_compliance st, Ok constant_compliance).
Proof. reflexivity. Qed.

Lemma constant_compliance_score (r : ResultsDict) :
  results_compliance r = Some constant_compliance ->
  dashboard_compliance_score r = Ok 84.
Proof.
  intros Hc. unfold dashboard_compliance_score. rewrite Hc.
  vm_compute. reflexivity.
Qed.

(** The dashboard is never produced: the template fails at its first
    style rule, unless the compliance score already could not be
    converted. *)
Lemma html_dashboard_raises (timestamp : datetime) (st : state) :
  exists e, generate_html_dashboard timestamp st = (st, Raise e).
Proof.
  unfold generate_html_dashboard.
  cbv [mbind M_bind get_results lift].
  destruct (dashboard_compliance_score (results st)) as [n|e]; [|eauto].
  rewrite security_template_field; [eauto|reflexivity].
Qed.

Lemma html_dashboard_KeyError (timestamp : datetime) (st : state) (n : Z) :
  dashboard_compliance_score (results st) = Ok n ->
  generate_html_dashboard timestamp st =
    (st, Raise (Exn KeyError "
            background")).
Proof.
  intros Hscore. unfold generate_html_dashboard.
  cbv [mbind M_bind get_results lift]. rewrite Hscore.
  rewrite security_template_field; reflexivity.
Qed.

(** *** A whole run *)

Lemma run_security_assessment_writes_nothing
    (script : disk -> run_outcome) (st : state) :
  written (fst (run_security_assessment script st)) = written st.
Proof.
  destruct (script (fs st)) as [returncode after|e after] eqn:Hrun.
  - rewrite (run_security_assessment_completed _ _ _ _ Hrun).
    destruct (security_assessment_report_json after) as [[doc|msg]|];
      reflexivity.
  - destruct (is_Exception (exn_cls e)) eqn:Hcls.
    + by rewrite (run_security_assessment_caught _ _ _ _ Hrun Hcls).
    + by rewrite (run_security_assessment_uncaught _ _ _ _ Hrun Hcls).
Qed.

Lemma collect_writes_nothing (timestamp : datetime) (st : state) :
  written (fst (collect_vulnerability_metrics timestamp st)) = written st.
Proof.
  destruct (trivy_results_json (fs st)) as [[trivy_data|msg]|] eqn:Hfile.
  - by rewrite (collect_with_trivy _ _ _ Hfile).
  - by rewrite (collect_malformed_trivy _ _ _ Hfile).
  - by rewrite (collect_without_trivy _ _ Hfile).
Qed.

(** Every run stops with an exception before anything is written:
    at the latest when the dashboard is formatted. *)
Lemma run_stops_before_writing
    (timestamp : datetime) (script : disk -> run_outcome) (st : state) :
  exists (st' : state) (e : exn),
    run timestamp script st = (st', Raise e) /\ written st' = written st.
Proof.
  unfold run. cbv [mbind M_bind print].
  match goal with
  | |- context [run_security_assessment script ?s] =>
      pose proof (run_security_assessment_writes_nothing script s) as Hw1;
      destruct (run_security_assessment script s) as [st1 [r1|e1]]
  end; cbn [fst written] in Hw1; [|eauto].
  match goal with
  | |- context [collect_vulnerability_metrics timestamp ?s] =>
      pose proof (collect_writes_nothing timestamp s) as Hw2;
      destruct (collect_vulnerability_metrics timestamp s) as [st2 [r2|e2]]
  end; cbn [fst written] in Hw2; [|eexists _, _; split; [reflexivity|congruence]].
  rewrite generate_compliance_report_constant.
  match goal with
  | |- context [generate_html_dashboard timestamp ?s] =>
      destruct (html_dashboard_raises timestamp s) as [e ->]
  end.
  eexists _, _. split; [reflexivity|].
  cbn [written store_compliance]. congruence.
Qed.

(** C9.  [generate_compliance_report] returns the same record in
    every state, and the score the dashboard computes from it is 84;
    but the dashboard that would show it is not produced: formatting
    the template raises KeyError at the first rule of its style sheet,
    so a run ends there with nothing written. *)
Theorem dashboard_is_never_rendered :
  (forall st : state,
      generate_compliance_report st =
        (store_compliance constant_compliance st, Ok constant_compliance)) /\
  (forall st : state,
      dashboard_compliance_score
        (results (store_compliance constant_compliance st)) = Ok 84) /\
  (forall (timestamp : datetime) (st : state),
      generate_html_dashboard timestamp (store_compliance constant_compliance st) =
        (store_compliance constant_compliance st,
         Raise (Exn KeyError "
            background"))) /\
  (forall (timestamp : datetime) (script : disk -> run_outcome) (d : disk),
      exists (st' : state) (e : exn),
        main timestamp script d = (st', Raise e) /\ written st' = []).
Proof.
  split; [exact generate_compliance_report_constant|].
  split; [intros st; by apply constant_compliance_score|].
  split.
  - intros timestamp st. apply (html_dashboard_KeyError _ _ 84).
    by apply constant_compliance_score.
  - intros timestamp script d. unfold main.
    exact (run_stops_before_writing timestamp script _).
Qed.

(** The run of an empty working directory, in full. *)
Lemma empty_directory_run :
  main Sample.now (Sample.exits_with 0) Sample.no_files =
    (mkState
       (mkResults None (Some (metrics_of Sample.now []))
                  (Some constant_compliance))
       Sample.no_files
       [ "Security Dashboard Generator - Gunj Operator";
         "==================================================";
         nl +:+ "1. Running security assessment...";
         "Running security assessment...";
         nl +:+ "2. Collecting vulnerability metrics...";
         nl +:+ "3. Generating compliance report...";
         nl +:+ "4. Creating HTML dashboard..." ]
       [],
     Raise (Exn KeyError "
            background")).
Proof. vm_compute. reflexivity. Qed.

End SecurityProperties.

(** ** Further properties of [scripts/generate-maturity-report.py] *)

Section MaturityBehaviour.
Import Py Maturity Spec Behaviour.

(** *** Score bands *)

Lemma band1_in (x : Z) : In (band1 x) bands1.
Proof. unfold band1, bands1. repeat case_match; simpl; auto 10. Qed.
Lemma band2_in (x : Z) : In (band2 x) bands2.
Proof. unfold band2, bands2. repeat case_match; simpl; auto 10. Qed.
Lemma band3_in (x : Z) : In (band3 x) bands3.
Proof. unfold band3, bands3. repeat case_match; simpl; auto 10. Qed.
Lemma band4_in (x : Z) : In (band4 x) bands4.
Proof. unfold band4, bands4. repeat case_match; simpl; auto 10. Qed.
Lemma band5_in (x : Z) : In (band5 x) bands5.
Proof. unfold band5, bands5. repeat case_match; simpl; auto 10. Qed.

Ltac decide_band :=
  intros;
  repeat match goal with
         | |- context [?a >=? ?b] => rewrite (Z.geb_leb a b)
         end;
  repeat match goal with
         | |- context [?a <? ?b] => is_var a; destruct (Z.ltb_spec a b)
         | |- context [?a <=? ?b] => is_var b; destruct (Z.leb_spec a b)
         end;
  first [reflexivity | lia].

Lemma band1_tests (x : Z) :
  (band1 x <? 5) = (x <? 5) /\ (band1 x <? 10) = (x <? 10) /\
  (band1 x <? 15) = (x <? 15) /\ (band1 x <? 20) = (x <? 20) /\
  (band1 x >=? 15) = (x >=? 15).
Proof. unfold band1. repeat split; decide_band. Qed.

Lemma band2_tests (x : Z) :
  (band2 x <? 10) = (x <? 10) /\ (band2 x <? 20) = (x <? 20) /\
  (band2 x <? 35) = (x <? 35) /\ (band2 x >=? 25) = (x >=? 25).
Proof. unfold band2. repeat split; decide_band. Qed.

Lemma band3_tests (x : Z) :
  (band3 x <? 25) = (x <? 25) /\ (band3 x >=? 15) = (x >=? 15).
Proof. unfold band3. repeat split; decide_band. Qed.

Lemma band4_tests (x : Z) :
  (band4 x <? 15) = (x <? 15) /\ (band4 x >=? 10) = (x >=? 10).
Proof. unfold band4. repeat split; decide_band. Qed.

Lemma band5_tests (x : Z) : (band5 x <? 20) = (x <? 20).
Proof. unfold band5. decide_band. Qed.

(** The recommendations depend on the scores through their bands
    only. *)
Lemma recommendations_by_band (self : MaturityReportGenerator) :
  let s := scores (report_data self) in
  _generate_recommendations self =
    recommendations_at (band1 (level1 s)) (band2 (level2 s))
                       (band3 (level3 s)) (band4 (level4 s)) (band5 (level5 s)).
Proof.
  destruct self as [af [ts pj [t p l1 l2 l3 l4 l5] ml]].
  cbn [scores report_data level1 level2 level3 level4 level5].
  unfold recommendations_at, _generate_recommendations.
  cbn [scores report_data level1 level2 level3 level4 level5].
  destruct (band1_tests l1) as (-> & -> & -> & -> & ->).
  destruct (band2_tests l2) as (-> & -> & -> & ->).
  destruct (band3_tests l3) as (-> & ->).
  destruct (band4_tests l4) as (-> & ->).
  rewrite (band5_tests l5).
  reflexivity.
Qed.

Lemma in_every_band_spec (check : Z -> Z -> Z -> Z -> Z -> bool) :
  in_every_band check = true ->
  forall l1 l2 l3 l4 l5 : Z,
    check (band1 l1) (band2 l2) (band3 l3) (band4 l4) (band5 l5) = true.
Proof.
  unfold in_every_band. intros H l1 l2 l3 l4 l5.
  rewrite forallb_forall in H. specialize (H _ (band1_in l1)).
  rewrite forallb_forall in H. specialize (H _ (band2_in l2)).
  rewrite forallb_forall in H. specialize (H _ (band3_in l3)).
  rewrite forallb_forall in H. specialize (H _ (band4_in l4)).
  rewrite forallb_forall in H. exact (H _ (band5_in l5)).
Qed.

(** *** The shape of the recommendation list *)

Lemma mentions_In (rec : string) (l : list string) :
  mentions rec l = true <-> In rec l.
Proof.
  unfold mentions. rewrite existsb_exists. split.
  - intros (x & Hx & Heq). apply String.eqb_eq in Heq. by subst.
  - intros Hin. exists rec. split; [exact Hin|apply String.eqb_refl].
Qed.

Lemma subsequence_sublist (l k : list string) :
  subsequence l k = true -> l `sublist_of` k.
Proof.
  revert l. induction k as [|y k IH]; intros [|x l]; simpl; intros H.
  - constructor.
  - discriminate.
  - apply sublist_nil_l.
  - destruct (String.eqb_spec x y) as [->|_].
    + apply sublist_skip, IH, H.
    + apply sublist_cons, IH, H.
Qed.

Lemma catalogue_NoDup : NoDup catalogue.
Proof. apply (bool_decide_unpack _). vm_compute. exact I. Qed.

(** X1.  Whatever the scores, the recommendations are entries of the
    fixed catalogue in catalogue order, none of them twice; there is at
    least one and there are at most thirteen, and thirteen are
    reached. *)
Theorem recommendations_follow_the_catalogue (self : MaturityReportGenerator) :
  _generate_recommendations self `sublist_of` catalogue /\
  NoDup (_generate_recommendations self) /\
  (1 <= length (_generate_recommendations self) <= 13)%nat /\
  length (recommendations_at 0 30 20 10 0) = 13%nat.
Proof.
  assert (Hall : in_every_band (fun l1 l2 l3 l4 l5 =>
            let recs := recommendations_at l1 l2 l3 l4 l5 in
            subsequence recs catalogue
            && (1 <=? length recs)%nat && (length recs <=? 13)%nat) = true)
    by (vm_compute; reflexivity).
  pose proof (in_every_band_spec _ Hall) as Hband. cbv beta zeta in Hband.
  rewrite (recommendations_by_band self). cbv zeta.
  specialize (Hband (level1 (scores (report_data self)))
                    (level2 (scores (report_data self)))
                    (level3 (scores (report_data self)))
                    (level4 (scores (report_data self)))
                    (level5 (scores (report_data self)))).
  apply andb_prop in Hband as [Hband Hmax].
  apply andb_prop in Hband as [Hsub Hmin].
  apply subsequence_sublist in Hsub.
  apply Nat.leb_le in Hmin, Hmax.
  split; [exact Hsub|].
  split; [exact (sublist_NoDup _ _ catalogue_NoDup Hsub)|].
  split; [lia|]. vm_compute. reflexivity.
Qed.

(** X2.  The fallback message is given exactly when every level has
    reached its maximum, and then it is the only entry. *)
Theorem fallback_means_every_level_complete (self : MaturityReportGenerator) :
  let s := scores (report_data self) in
  (In fallback_recommendation (_generate_recommendations self) <->
   level1 s >= 20 /\ level2 s >= 35 /\ level3 s >= 25 /\
   level4 s >= 15 /\ level5 s >= 20) /\
  (In fallback_recommendation (_generate_recommendations self) <->
   _generate_recommendations self = [fallback_recommendation]).
Proof.
  intros s.
  assert (Hall : in_every_band (fun l1 l2 l3 l4 l5 =>
            let recs := recommendations_at l1 l2 l3 l4 l5 in
            Bool.eqb (mentions fallback_recommendation recs)
                     (negb (l1 <? 20) && negb (l2 <? 35) && negb (l3 <? 25)
                      && negb (l4 <? 15) && negb (l5 <? 20))
            && Bool.eqb (mentions fallback_recommendation recs)
                        (bool_decide (recs = [fallback_recommendation]))) = true)
    by (vm_compute; reflexivity).
  pose proof (in_every_band_spec _ Hall (level1 s) (level2 s) (level3 s)
                                 (level4 s) (level5 s)) as Hband.
  cbv beta zeta in Hband.
  pose proof (recommendations_by_band self) as Hrec. cbv zeta in Hrec.
  fold s in Hrec. rewrite <- Hrec in Hband. clear Hrec.
  destruct (band1_tests (level1 s)) as (_ & _ & _ & E1 & _).
  destruct (band2_tests (level2 s)) as (_ & _ & E2 & _).
  destruct (band3_tests (level3 s)) as (E3 & _).
  destruct (band4_tests (level4 s)) as (E4 & _).
  rewrite E1, E2, E3, E4, (band5_tests (level5 s)) in Hband.
  apply andb_prop in Hband as [Hiff Hsingle].
  apply Bool.eqb_prop in Hiff, Hsingle.
  rewrite <- !mentions_In. rewrite Hiff at 1. rewrite Hsingle.
  split.
  - rewrite !andb_true_iff, !negb_true_iff, !Z.ltb_ge. lia.
  - apply bool_decide_eq_true.
Qed.

Ltac use_bands Hall self Hband :=
  pose proof (in_every_band_spec _ Hall
                (level1 (scores (report_data self)))
                (level2 (scores (report_data self)))
                (level3 (scores (report_data self)))
                (level4 (scores (report_data self)))
                (level5 (scores (report_data self)))) as Hband;
  cbv beta zeta in Hband;
  let Hrec := fresh "Hrec" in
  pose proof (recommendations_by_band self) as Hrec; cbv zeta in Hrec;
  rewrite <- Hrec in Hband; clear Hrec;
  destruct (band1_tests (level1 (scores (report_data self))))
    as (? & ? & ? & ? & ?);
  destruct (band2_tests (level2 (scores (report_data self))))
    as (? & ? & ? & ?);
  destruct (band3_tests (level3 (scores (report_data self)))) as (? & ?);
  destruct (band4_tests (level4 (scores (report_data self)))) as (? & ?);
  pose proof (band5_tests (level5 (scores (report_data self))));
  repeat match goal with
         | H : (_ <? _) = (_ <? _) |- _ => rewrite ?H in Hband; clear H
         | H : (_ >=? _) = (_ >=? _) |- _ => rewrite ?H in Hband; clear H
         end.

Ltac reflect_checks H :=
  repeat match type of H with
         | _ && _ = true =>
             let H' := fresh "K" in apply andb_prop in H as [H' H]
         end.

(** X3.  An open gate does recommend: when a level is below its
    maximum and the level before it has met the prerequisite, the
    recommendations of that level that carry no threshold of their own
    are in the list. *)
Theorem open_gates_recommend (self : MaturityReportGenerator) :
  let s := scores (report_data self) in
  let recs := _generate_recommendations self in
  (level1 s < 20 ->
     In "Use minimal base images (distroless or alpine)" recs) /\
  (level2 s < 35 -> level1 s >= 15 ->
     In "Create Helm charts for deployment" recs /\
     In "Configure RBAC policies" recs) /\
  (level3 s < 25 -> level2 s >= 25 ->
     forall rec, In rec level3_recommendations -> In rec recs) /\
  (level4 s < 15 -> level3 s >= 15 ->
     forall rec, In rec level4_recommendations -> In rec recs) /\
  (level5 s < 20 -> level4 s >= 10 ->
     forall rec, In rec level5_recommendations -> In rec recs).
Proof.
  intros s recs. subst s recs.
  assert (Hall : in_every_band (fun l1 l2 l3 l4 l5 =>
            let recs := recommendations_at l1 l2 l3 l4 l5 in
            implb (l1 <? 20)
              (mentions "Use minimal base images (distroless or alpine)" recs)
            && implb ((l2 <? 35) && (l1 >=? 15))
                 (mentions "Create Helm charts for deployment" recs
                  && mentions "Configure RBAC policies" recs)
            && implb ((l3 <? 25) && (l2 >=? 25))
                 (forallb (fun rec => mentions rec recs) level3_recommendations)
            && implb ((l4 <? 15) && (l3 >=? 15))
                 (forallb (fun rec => mentions rec recs) level4_recommendations)
            && implb ((l5 <? 20) && (l4 >=? 10))
                 (forallb (fun rec => mentions rec recs) level5_recommendations))
            = true)
    by (vm_compute; reflexivity).
  use_bands Hall self Hband.
  rewrite !andb_true_iff, !implb_true_iff, !andb_true_iff, !Z.ltb_lt,
    !Z.geb_le, !mentions_In, !forallb_forall in Hband.
  destruct Hband as ((((H1 & H2) & H3) & H4) & H5).
  split; [exact H1|].
  split; [intros; apply H2; lia|].
  split; [intros ? ? rec Hin; apply mentions_In, H3; [lia|exact Hin]|].
  split; [intros ? ? rec Hin; apply mentions_In, H4; [lia|exact Hin]|].
  intros ? ? rec Hin; apply mentions_In, H5; [lia|exact Hin].
Qed.

Lemma open_gates_recommend_witness :
  In "Create Helm charts for deployment"
     (_generate_recommendations Sample.orchestrating) /\
  In "Configure RBAC policies"
     (_generate_recommendations Sample.orchestrating).
Proof.
  apply (proj1 (proj2 (open_gates_recommend Sample.orchestrating)));
    cbn; lia.
Defined.

(** X4.  The thresholds inside a level are nested.  In Level 1 each
    recommendation brings all the later ones with it; in Level 2 the
    resource definitions bring the controller pattern, which brings
    the Helm charts and the RBAC policies, and these two come
    together; the recommendations of Levels 3, 4 and 5 come all
    together or not at all. *)
Theorem thresholds_are_nested (self : MaturityReportGenerator) :
  let recs := _generate_recommendations self in
  (In "Create a Dockerfile for containerizing the application" recs ->
   In "Implement multi-stage builds to optimize container size" recs) /\
  (In "Implement multi-stage builds to optimize container size" recs ->
   In "Configure containers to run as non-root user" recs) /\
  (In "Configure containers to run as non-root user" recs ->
   In "Use minimal base images (distroless or alpine)" recs) /\
  (In "Define Custom Resource Definitions (CRDs)" recs ->
   In "Implement Kubernetes controller pattern" recs) /\
  (In "Implement Kubernetes controller pattern" recs ->
   In "Create Helm charts for deployment" recs) /\
  (In "Create Helm charts for deployment" recs <->
   In "Configure RBAC policies" recs) /\
  (forall level,
     In level [ level3_recommendations; level4_recommendations;
                level5_recommendations ] ->
     forall rec rec', In rec level -> In rec' level ->
                      In rec recs -> In rec' recs).
Proof.
  intros recs. subst recs.
  assert (Hall : in_every_band (fun l1 l2 l3 l4 l5 =>
            let recs := recommendations_at l1 l2 l3 l4 l5 in
            let has rec := mentions rec recs in
            implb (has "Create a Dockerfile for containerizing the application")
                  (has "Implement multi-stage builds to optimize container size")
            && implb (has "Implement multi-stage builds to optimize container size")
                     (has "Configure containers to run as non-root user")
            && implb (has "Configure containers to run as non-root user")
                     (has "Use minimal base images (distroless or alpine)")
            && implb (has "Define Custom Resource Definitions (CRDs)")
                     (has "Implement Kubernetes controller pattern")
            && implb (has "Implement Kubernetes controller pattern")
                     (has "Create Helm charts for deployment")
            && Bool.eqb (has "Create Helm charts for deployment")
                        (has "Configure RBAC policies")
            && forallb (fun level =>
                 forallb (fun rec =>
                   forallb (fun rec' => implb (has rec) (has rec')) level) level)
                 [ level3_recommendations; level4_recommendations;
                   level5_recommendations ]) = true)
    by (vm_compute; reflexivity).
  use_bands Hall self Hband.
  rewrite !andb_true_iff, !implb_true_iff, !mentions_In in Hband.
  destruct Hband as ((((((H1 & H2) & H3) & H4) & H5) & H6) & H7).
  split; [exact H1|]. split; [exact H2|]. split; [exact H3|].
  split; [exact H4|]. split; [exact H5|].
  split.
  { apply Bool.eqb_prop in H6. rewrite <- !mentions_In, H6. reflexivity. }
  intros level Hlevel rec rec' Hrec Hrec' Hin.
  rewrite forallb_forall in H7. specialize (H7 level Hlevel).
  rewrite forallb_forall in H7. specialize (H7 rec Hrec).
  rewrite forallb_forall in H7. specialize (H7 rec' Hrec').
  rewrite implb_true_iff, !mentions_In in H7. exact (H7 Hin).
Qed.

Lemma thresholds_are_nested_witness :
  In "Implement multi-stage builds to optimize container size"
     (recommendations_at 3 0 0 0 0).
Proof.
  apply (proj1 (thresholds_are_nested
                  (mkGenerator "" (mkReportData "" ""
                     (mkScores 0 0 3 0 0 0 0) "")))).
  vm_compute. auto.
Defined.

(** *** Percentages outside the range *)

Lemma unclamped_percentage_ok_all :
  forallb (fun maximum =>
             forallb (unclamped_percentage_ok maximum)
                     (integers_from (-1000) 2001))
          category_maximums = true.
Proof. vm_compute. reflexivity. Qed.

Lemma In_integers_from (lo z : Z) (n : nat) :
  lo <= z < lo + Z.of_nat n -> In z (integers_from lo n).
Proof.
  intros Hz. unfold integers_from. apply in_map_iff.
  exists (Z.to_nat (z - lo)). split; [lia|]. apply in_seq. lia.
Qed.

(** X5.  The percentage is not clamped to the range of the category:
    for any score from -1000 to 1000 it is still the integer nearest
    to [score / maximum * 100], so it is above 100 exactly when the
    score is above the maximum and negative exactly when the score is
    negative. *)
Theorem percentage_is_not_clamped (maximum score : Z) :
  In maximum category_maximums ->
  -1000 <= score <= 1000 ->
  exists (x : float) (n : Z),
    level_pct score maximum = Ok x /\
    round x = Ok n /\
    format_0f x = str_of_int n /\
    nearest_percentage score maximum n /\
    (100 < n <-> maximum < score) /\
    (n < 0 <-> score < 0).
Proof.
  intros Hmax Hscore.
  pose proof unclamped_percentage_ok_all as Hall.
  rewrite forallb_forall in Hall. specialize (Hall maximum Hmax).
  rewrite forallb_forall in Hall.
  assert (Hin : In score (integers_from (-1000) 2001)).
  { apply In_integers_from. change (Z.of_nat 2001) with 2001. lia. }
  specialize (Hall score Hin).
  unfold unclamped_percentage_ok in Hall.
  destruct (level_pct score maximum) as [x|] eqn:Hx; [|discriminate].
  destruct (round x) as [n|] eqn:Hn; [|discriminate].
  apply andb_prop in Hall as [Hall Hneg].
  apply andb_prop in Hall as [Hall Hover].
  apply andb_prop in Hall as [Hfmt Hnear].
  apply Bool.eqb_prop in Hneg, Hover.
  exists x, n.
  split; [reflexivity|]. split; [exact Hn|].
  split; [by apply String.eqb_eq|].
  split; [unfold nearest_percentage; lia|].
  split.
  - rewrite <- !Z.ltb_lt, Hover. reflexivity.
  - rewrite <- !Z.ltb_lt, Hneg. reflexivity.
Qed.

Lemma percentage_is_not_clamped_witness :
  exists (x : float) (n : Z),
    level_pct 40 20 = Ok x /\ round x = Ok n /\
    format_0f x = str_of_int n /\
    nearest_percentage 40 20 n /\
    (100 < n <-> 20 < 40) /\ (n < 0 <-> 40 < 0).
Proof.
  apply (percentage_is_not_clamped 20 40 ltac:(cbv; auto) ltac:(lia)).
Defined.

(** *** The Markdown report *)

Lemma occurs_in_append (piece doc more : string) :
  occurs_in piece doc -> occurs_in piece (doc +:+ more).
Proof.
  intros (before & after & ->). exists before, (after +:+ more).
  by rewrite !append_assoc.
Qed.

Lemma numbered_lines_are_kept (l : list (Z * string)) :
  forall markdown : string,
    let out :=
      fold_left (fun markdown '(i, rec) =>
                   markdown +:+ str_of_int i +:+ ". " +:+ rec +:+ nl)
                l markdown in
    (exists rest, out = markdown +:+ rest) /\
    (forall i rec, In (i, rec) l -> occurs_in (numbered_line i rec) out).
Proof.
  induction l as [|[j r] l IH]; intros markdown; cbn [fold_left].
  - split; [|intros i rec []].
    exists "". clear. induction markdown as [|c m IHm]; [reflexivity|].
    change (String c m = String c (m +:+ "")). by rewrite <- IHm.
  - destruct (IH (markdown +:+ str_of_int j +:+ ". " +:+ r +:+ nl))
      as [[rest Hrest] Hin].
    cbv zeta in *. split.
    + exists ((str_of_int j +:+ ". " +:+ r +:+ nl) +:+ rest).
      by rewrite Hrest, append_assoc.
    + intros i rec [[= <- <-]|Hl]; [|by apply Hin].
      exists markdown, rest. rewrite Hrest, append_assoc. reflexivity.
Qed.

Lemma enumerate_lookup {A} (l : list A) :
  forall (start : Z) (i : nat) (x : A),
    l !! i = Some x -> In (start + Z.of_nat i, x) (enumerate start l).
Proof.
  induction l as [|y l IH]; intros start i x Hi; [discriminate|].
  destruct i as [|i]; cbn [enumerate].
  - injection Hi as ->. left. f_equal. lia.
  - right. replace (start + Z.of_nat (S i)) with ((start + 1) + Z.of_nat i)
      by lia.
    by apply IH.
Qed.

(** X6.  For scores within their ranges the Markdown report is
    produced, and it holds every recommendation on a line of its own,
    numbered from 1 in the order of the list. *)
Theorem markdown_numbers_every_recommendation (self : MaturityReportGenerator) :
  let s := scores (report_data self) in
  0 <= level1 s <= 20 -> 0 <= level2 s <= 35 -> 0 <= level3 s <= 25 ->
  0 <= level4 s <= 15 -> 0 <= level5 s <= 20 ->
  exists doc : string,
    generate_markdown_report self = Ok doc /\
    forall (i : nat) (rec : string),
      _generate_recommendations self !! i = Some rec ->
      occurs_in (numbered_line (Z.of_nat i + 1) rec) doc.
Proof.
  intros s H1 H2 H3 H4 H5. unfold generate_markdown_report. fold s.
  destruct (level_pct_in_range 20 (level1 s)) as (x1 & n1 & -> & _);
    [cbv; tauto|exact H1|].
  destruct (level_pct_in_range 35 (level2 s)) as (x2 & n2 & -> & _);
    [cbv; tauto|exact H2|].
  destruct (level_pct_in_range 25 (level3 s)) as (x3 & n3 & -> & _);
    [cbv; tauto|exact H3|].
  destruct (level_pct_in_range 15 (level4 s)) as (x4 & n4 & -> & _);
    [cbv; tauto|exact H4|].
  destruct (level_pct_in_range 20 (level5 s)) as (x5 & n5 & -> & _);
    [cbv; tauto|exact H5|].
  cbn [mbind result_bind bind mret result_ret].
  eexists. split; [reflexivity|].
  intros i rec Hi.
  apply occurs_in_append.
  match goal with
  | |- occurs_in _ (fold_left _ ?l ?m) =>
      destruct (numbered_lines_are_kept l m) as [_ Hin]
  end.
  apply Hin. rewrite Z.add_comm. by apply enumerate_lookup.
Qed.

Lemma markdown_numbers_every_recommendation_witness :
  exists doc : string,
    generate_markdown_report Sample.orchestrating = Ok doc /\
    forall (i : nat) (rec : string),
      _generate_recommendations Sample.orchestrating !! i = Some rec ->
      occurs_in (numbered_line (Z.of_nat i + 1) rec) doc.
Proof.
  apply (markdown_numbers_every_recommendation Sample.orchestrating);
    cbn; lia.
Defined.

(** *** The HTML report and the whole script *)

(** X7.  The HTML report is never produced.  [generate_html_report]
    raises for every record, and for scores within their ranges the
    exception is the KeyError of the template's first style rule. *)
Theorem html_report_is_never_produced (self : MaturityReportGenerator) :
  (exists e, generate_html_report self = Raise e) /\
  (let s := scores (report_data self) in
   0 <= level1 s <= 20 -> 0 <= level2 s <= 35 -> 0 <= level3 s <= 25 ->
   0 <= level4 s <= 15 -> 0 <= level5 s <= 20 ->
   generate_html_report self =
     Raise (Exn KeyError "
            font-family")).
Proof.
  split.
  - pose proof (html_report_raises self) as H.
    destruct (generate_html_report self) as [html|e]; [discriminate|eauto].
  - exact (html_report_KeyError self).
Qed.

Lemma html_report_is_never_produced_witness :
  generate_html_report Sample.orchestrating =
    Raise (Exn KeyError "
            font-family").
Proof.
  apply (proj2 (html_report_is_never_produced Sample.orchestrating));
    cbn; lia.
Defined.

(** X8.  A run of the maturity script writes no file and prints
    nothing, whatever the working directory holds and whatever the
    clock reads: it ends with an exception.  With the input file
    missing the exception is the KeyError of the HTML template, after
    the default record has been built. *)
Theorem maturity_run_writes_nothing (utcnow : string) (fs : disk) :
  (exists e, main utcnow fs = (mkEffects [] [], Raise e)) /\
  (fs "maturity-assessment-report.json" = None ->
   main utcnow fs =
     (mkEffects [] [],
      Raise (Exn KeyError "
            font-family"))).
Proof.
  split.
  - unfold main.
    destruct (__init__ utcnow fs "maturity-assessment-report.json")
      as [generator|e]; [|eauto].
    exact (save_reports_writes_nothing generator).
  - intros Hmissing. unfold main, __init__, _load_assessment_data.
    rewrite Hmissing.
    cbn [mbind result_bind bind mret result_ret]. unfold save_reports.
    rewrite html_report_KeyError; [reflexivity|cbn; lia..].
Qed.

Lemma maturity_run_writes_nothing_witness :
  main Sample.clock Sample.empty_directory =
    (mkEffects [] [],
     Raise (Exn KeyError "
            font-family")).
Proof.
  apply (proj2 (maturity_run_writes_nothing Sample.clock Sample.empty_directory)).
  reflexivity.
Defined.

End MaturityBehaviour.

(** ** The documents of [scripts/generate-maturity-report.py] *)

Section MaturityDocuments.
Import Py Maturity Spec Behaviour Documents.

(** *** Strings *)

Lemma append_empty_r (s : string) : s +:+ "" = s.
Proof.
  induction s as [|c s IH]; [reflexivity|].
  change (String c (s +:+ "") = String c s). by rewrite IH.
Qed.

Lemma fold_numbered_lines (l : list (Z * string)) :
  forall markdown : string,
    fold_left (fun markdown '(i, rec) =>
                 markdown +:+ str_of_int i +:+ ". " +:+ rec +:+ nl)
              l markdown =
    markdown +:+ numbered_lines l.
Proof.
  induction l as [|[i rec] l IH]; intros markdown; cbn [fold_left].
  - cbn [numbered_lines fold_right]. by rewrite append_empty_r.
  - rewrite IH. cbn [numbered_lines fold_right]. unfold numbered_line.
    by rewrite !append_assoc.
Qed.

Lemma prefix_append (piece after : string) :
  String.prefix piece (piece +:+ after) = true.
Proof.
  induction piece as [|c piece IH]; [by destruct after|].
  change (String.prefix (String c piece) (String c (piece +:+ after)) = true).
  cbn [String.prefix]. destruct (ascii_dec c c); [exact IH|contradiction].
Qed.

Lemma occurs_in_contains (piece doc : string) :
  occurs_in piece doc -> contains piece doc = true.
Proof.
  intros (before & after & ->).
  induction before as [|c before IH].
  - change (contains piece (piece +:+ after) = true).
    pose proof (prefix_append piece after) as H.
    destruct (piece +:+ after); cbn [contains]; by rewrite H.
  - change (contains piece (String c (before +:+ piece +:+ after)) = true).
    cbn [contains]. rewrite IH. apply orb_true_r.
Qed.

(** *** The score table *)

(** C2, as stated, fails for the Total row: it shows the percentage
    stored in the record, which the levels do not determine.  With
    every level at its maximum and a stored percentage of 0 the level
    rows show 100% and the Total row shows 0%. *)
Lemma total_row_shows_the_stored_percentage :
  all_maximum (scores (report_data stale_percentage)) /\
  _generate_recommendations stale_percentage = [fallback_recommendation] /\
  (exists doc : string,
      generate_markdown_report stale_percentage = Ok doc /\
      firstn 6 (skipn 15 (lines doc)) =
        [ "| 1 | Containerization | 20 | 20 | 100% |";
          "| 2 | Dynamic Orchestration | 35 | 35 | 100% |";
          "| 3 | Microservices Oriented | 25 | 25 | 100% |";
          "| 4 | Cloud Native Services | 15 | 15 | 100% |";
          "| 5 | Cloud Native Operations | 20 | 20 | 100% |";
          "| **Total** | | **115** | **115** | **0%** |" ]) /\
  ~ every_row_shows_100_percent.
Proof.
  assert (Hmax : all_maximum (scores (report_data stale_percentage)))
    by (cbv; tauto).
  split; [exact Hmax|]. split; [reflexivity|]. split.
  - eexists. split; [vm_compute; reflexivity|]. vm_compute. reflexivity.
  - intros Hevery.
    destruct (Hevery stale_percentage Hmax) as (_ & doc & Hdoc & Hshown).
    apply occurs_in_contains in Hshown.
    vm_compute in Hdoc. injection Hdoc as <-.
    vm_compute in Hshown. discriminate Hshown.
Qed.

Lemma round_never_divides_by_zero (x : float) (e : exn) :
  round x = Raise e -> exn_cls e <> ZeroDivisionError.
Proof. destruct x; cbn; intros [= <-]; discriminate. Qed.

Lemma markdown_report_never_divides_by_zero
    (self : MaturityReportGenerator) (e : exn) :
  generate_markdown_report self = Raise e -> exn_cls e = OverflowError.
Proof.
  unfold generate_markdown_report. cbv zeta.
  repeat match goal with
         | |- mbind _ (level_pct ?score ?maximum) = _ -> _ =>
             let H := fresh "H" in
             destruct (level_pct score maximum) eqn:H;
             [cbn [mbind result_bind bind]
             |cbn [mbind result_bind bind]; intros [= <-];
              by apply (level_pct_never_divides_by_zero maximum score _ ltac:(lia) H)]
         end.
  cbn [mret result_ret]. intros [=].
Qed.

Lemma html_report_never_divides_by_zero
    (self : MaturityReportGenerator) (e : exn) :
  generate_html_report self = Raise e -> exn_cls e <> ZeroDivisionError.
Proof.
  unfold generate_html_report. cbv zeta.
  repeat match goal with
         | |- mbind _ (level_pct ?score ?maximum) = _ -> _ =>
             let H := fresh "H" in
             destruct (level_pct score maximum) eqn:H;
             [cbn [mbind result_bind bind]
             |cbn [mbind result_bind bind]; intros [= <-];
              rewrite (level_pct_never_divides_by_zero maximum score _ ltac:(lia) H);
              discriminate]
         end.
  repeat match goal with
         | |- mbind _ (round ?x) = _ -> _ =>
             let H := fresh "H" in
             destruct (round x) eqn:H;
             [cbn [mbind result_bind bind]
             |cbn [mbind result_bind bind]; intros [= <-];
              by apply (round_never_divides_by_zero _ _ H)]
         end.
  rewrite maturity_template_field by reflexivity.
  intros [= <-]. discriminate.
Qed.

Lemma html_report_arguments (self : MaturityReportGenerator) :
  generate_html_report self =
    (kw ← html_arguments self; format html_template kw).
Proof.
  unfold generate_html_report, html_arguments. cbv zeta.
  repeat match goal with
         | |- mbind _ ?r = _ => destruct r; [cbn [mbind result_bind bind]|reflexivity]
         end.
  reflexivity.
Qed.

(** C3.  For level scores within their ranges both reports take, for
    each level, the integer nearest to [score / maximum * 100], which
    lies between 0 and 100.  The Markdown report shows it in the row
    of that level, beside the score and the maximum it was computed
    from.  The HTML report passes it, rounded, as the argument
    [level<k>_pct] of the template; formatting the template then
    fails, so the HTML report displays no percentage at all.  The
    divisors are the constants 20, 35, 25, 15 and 20: for no record
    does either report raise ZeroDivisionError. *)
Theorem displayed_percentages (self : MaturityReportGenerator) :
  let s := scores (report_data self) in
  0 <= level1 s <= 20 -> 0 <= level2 s <= 35 -> 0 <= level3 s <= 25 ->
  0 <= level4 s <= 15 -> 0 <= level5 s <= 20 ->
  exists n1 n2 n3 n4 n5 : Z,
    (nearest_percentage (level1 s) 20 n1 /\ 0 <= n1 <= 100) /\
    (nearest_percentage (level2 s) 35 n2 /\ 0 <= n2 <= 100) /\
    (nearest_percentage (level3 s) 25 n3 /\ 0 <= n3 <= 100) /\
    (nearest_percentage (level4 s) 15 n4 /\ 0 <= n4 <= 100) /\
    (nearest_percentage (level5 s) 20 n5 /\ 0 <= n5 <= 100) /\
    (exists doc : string,
        generate_markdown_report self = Ok doc /\
        occurs_in (score_table s n1 n2 n3 n4 n5 (percentage s)) doc) /\
    (exists kw : kwargs,
        html_arguments self = Ok kw /\
        map (fun k => kw_lookup k kw)
            [ "level1_score"; "level2_score"; "level3_score";
              "level4_score"; "level5_score" ] =
          map (fun score => Some (str_of_int score))
              [ level1 s; level2 s; level3 s; level4 s; level5 s ] /\
        map (fun k => kw_lookup k kw)
            [ "level1_pct"; "level2_pct"; "level3_pct";
              "level4_pct"; "level5_pct" ] =
          map (fun n => Some (str_of_int n)) [ n1; n2; n3; n4; n5 ] /\
        generate_html_report self = format html_template kw /\
        format html_template kw =
          Raise (Exn KeyError "
            font-family")) /\
    (forall (other : MaturityReportGenerator) (e : exn),
        generate_markdown_report other = Raise e \/
        generate_html_report other = Raise e ->
        exn_cls e <> ZeroDivisionError).
Proof.
  intros s H1 H2 H3 H4 H5.
  destruct (level_pct_in_range 20 (level1 s)) as (x1 & n1 & E1 & R1 & F1 & N1);
    [cbv; tauto|exact H1|].
  destruct (level_pct_in_range 35 (level2 s)) as (x2 & n2 & E2 & R2 & F2 & N2);
    [cbv; tauto|exact H2|].
  destruct (level_pct_in_range 25 (level3 s)) as (x3 & n3 & E3 & R3 & F3 & N3);
    [cbv; tauto|exact H3|].
  destruct (level_pct_in_range 15 (level4 s)) as (x4 & n4 & E4 & R4 & F4 & N4);
    [cbv; tauto|exact H4|].
  destruct (level_pct_in_range 20 (level5 s)) as (x5 & n5 & E5 & R5 & F5 & N5);
    [cbv; tauto|exact H5|].
  exists n1, n2, n3, n4, n5.
  do 5 (split; [assumption|]).
  split; [|split].
  - unfold generate_markdown_report. fold s.
    rewrite E1, E2, E3, E4, E5.
    cbn [mbind result_bind bind mret result_ret].
    rewrite F1, F2, F3, F4, F5.
    eexists. split; [reflexivity|].
    apply occurs_in_append. rewrite fold_numbered_lines.
    apply occurs_in_append.
    exists (markdown_heading +:+
      timestamp (report_data self) +:+
      "  
**Maturity Level**: " +:+
      maturityLevel (report_data self) +:+
      "  

## Executive Summary

The Gunj Operator project has achieved a maturity score of **" +:+
      str_of_int (total s) +:+
      "/115** (" +:+
      str_of_int (percentage s) +:+
      "%), 
placing it at **" +:+
      maturityLevel (report_data self) +:+
      "**.

## Score Breakdown

"),
           "
## Recommendations

".
    unfold score_table, score_row, total_row, markdown_heading.
    rewrite !append_assoc. reflexivity.
  - rewrite html_report_arguments.
    unfold html_arguments. fold s.
    rewrite E1, E2, E3, E4, E5.
    cbn [mbind result_bind bind mret result_ret].
    rewrite R1, R2, R3, R4, R5.
    cbn [mbind result_bind bind mret result_ret].
    eexists. split; [reflexivity|].
    split; [reflexivity|]. split; [reflexivity|]. split; [reflexivity|].
    apply maturity_template_field. reflexivity.
  - intros other e [He|He].
    + rewrite (markdown_report_never_divides_by_zero _ _ He). discriminate.
    + exact (html_report_never_divides_by_zero _ _ He).
Qed.

Lemma displayed_percentages_witness :
  let s := scores (report_data Sample.orchestrating) in
  exists n1 n2 n3 n4 n5 : Z,
    (nearest_percentage 16 20 n1 /\ 0 <= n1 <= 100) /\
    (nearest_percentage 30 35 n2 /\ 0 <= n2 <= 100) /\
    (nearest_percentage 10 25 n3 /\ 0 <= n3 <= 100) /\
    (nearest_percentage 2 15 n4 /\ 0 <= n4 <= 100) /\
    (nearest_percentage 2 20 n5 /\ 0 <= n5 <= 100) /\
    exists doc : string,
      generate_markdown_report Sample.orchestrating = Ok doc /\
      occurs_in (score_table s n1 n2 n3 n4 n5 52) doc.
Proof.
  destruct (displayed_percentages Sample.orchestrating
              ltac:(cbn; lia) ltac:(cbn; lia) ltac:(cbn; lia)
              ltac:(cbn; lia) ltac:(cbn; lia))
    as (n1 & n2 & n3 & n4 & n5 & N1 & N2 & N3 & N4 & N5 & Hdoc & _).
  exists n1, n2, n3, n4, n5.
  repeat (split; [assumption|]). exact Hdoc.
Defined.

(** *** Two runs *)

(** Two records with the same scores and maturity level: the
    Markdown reports read the same before and after the timestamp. *)
Lemma markdown_report_around_timestamp
    (file1 file2 t1 t2 project1 project2 : string)
    (s : Scores) (level : string) :
  let g1 := mkGenerator file1 (mkReportData t1 project1 s level) in
  let g2 := mkGenerator file2 (mkReportData t2 project2 s level) in
  (exists after : string,
      generate_markdown_report g1 = Ok (markdown_heading +:+ t1 +:+ after) /\
      generate_markdown_report g2 = Ok (markdown_heading +:+ t2 +:+ after)) \/
  (exists e : exn,
      generate_markdown_report g1 = Raise e /\
      generate_markdown_report g2 = Raise e).
Proof.
  intros g1 g2. unfold generate_markdown_report. cbv zeta.
  subst g1 g2.
  cbn [scores report_data total percentage level1 level2 level3 level4 level5
       timestamp maturityLevel].
  change (_generate_recommendations
            (mkGenerator file2 (mkReportData t2 project2 s level)))
    with (_generate_recommendations
            (mkGenerator file1 (mkReportData t1 project1 s level))).
  destruct (level_pct (level1 s) 20); [|right; eauto].
  destruct (level_pct (level2 s) 35); [|right; eauto].
  destruct (level_pct (level3 s) 25); [|right; eauto].
  destruct (level_pct (level4 s) 15); [|right; eauto].
  destruct (level_pct (level5 s) 20); [|right; eauto].
  left. cbn [mbind result_bind bind mret result_ret].
  rewrite !fold_numbered_lines. unfold markdown_heading.
  rewrite !append_assoc.
  eexists. split; reflexivity.
Qed.

(** Two records with the same scores and maturity level: the
    arguments of the HTML template are the same but for
    [timestamp], and the HTML report ends with the same exception. *)
Lemma html_report_around_timestamp
    (file1 file2 t1 t2 project1 project2 : string)
    (s : Scores) (level : string) :
  let g1 := mkGenerator file1 (mkReportData t1 project1 s level) in
  let g2 := mkGenerator file2 (mkReportData t2 project2 s level) in
  ((exists kw1 kw2 : kwargs,
       html_arguments g1 = Ok kw1 /\ html_arguments g2 = Ok kw2 /\
       differ_only_at "timestamp" kw1 kw2) \/
   (exists e : exn,
       html_arguments g1 = Raise e /\ html_arguments g2 = Raise e)) /\
  (exists e : exn,
      generate_html_report g1 = Raise e /\ generate_html_report g2 = Raise e).
Proof.
  intros g1 g2. rewrite !html_report_arguments.
  unfold html_arguments. cbv zeta. subst g1 g2.
  cbn [scores report_data total percentage level1 level2 level3 level4 level5
       timestamp maturityLevel].
  change (_generate_recommendations
            (mkGenerator file2 (mkReportData t2 project2 s level)))
    with (_generate_recommendations
            (mkGenerator file1 (mkReportData t1 project1 s level))).
  repeat match goal with
         | |- context [mbind _ ?r] =>
             destruct r; cbn [mbind result_bind bind mret result_ret];
             [|split; [right|]; eauto]
         end.
  split.
  - left. eexists _, _. split; [reflexivity|]. split; [reflexivity|].
    split; [reflexivity|].
    intros k Hk. cbn [kw_lookup].
    destruct (String.eqb_spec k "timestamp") as [|_]; [contradiction|].
    reflexivity.
  - rewrite !maturity_template_field by reflexivity. eauto.
Qed.

(** C8.  Two runs over the same files, whatever the clocks read.  The
    recommendation lists are the same list.  The Markdown reports
    either both fail with the same exception or are the same text
    around their timestamps: the heading, the timestamp of the run,
    and a rest that is the same for both.  The arguments the HTML
    reports pass to their template are the same but for [timestamp],
    and the HTML reports themselves end with the same exception, so
    that no HTML document is rendered by either run.  When the input
    file exists the two timestamps are the same as well. *)
Theorem two_runs_differ_in_the_timestamp_alone
    (fs : disk) (assessment_file utcnow1 utcnow2 : string)
    (g1 g2 : MaturityReportGenerator) :
  __init__ utcnow1 fs assessment_file = Ok g1 ->
  __init__ utcnow2 fs assessment_file = Ok g2 ->
  let t1 := timestamp (report_data g1) in
  let t2 := timestamp (report_data g2) in
  _generate_recommendations g1 = _generate_recommendations g2 /\
  ((exists after : string,
       generate_markdown_report g1 = Ok (markdown_heading +:+ t1 +:+ after) /\
       generate_markdown_report g2 = Ok (markdown_heading +:+ t2 +:+ after)) \/
   (exists e : exn,
       generate_markdown_report g1 = Raise e /\
       generate_markdown_report g2 = Raise e)) /\
  ((exists kw1 kw2 : kwargs,
       html_arguments g1 = Ok kw1 /\ html_arguments g2 = Ok kw2 /\
       differ_only_at "timestamp" kw1 kw2) \/
   (exists e : exn,
       html_arguments g1 = Raise e /\ html_arguments g2 = Raise e)) /\
  (exists e : exn,
      generate_html_report g1 = Raise e /\ generate_html_report g2 = Raise e) /\
  (fs assessment_file <> None -> t1 = t2).
Proof.
  intros H1 H2. cbv zeta.
  unfold __init__, _load_assessment_data in H1, H2.
  destruct (fs assessment_file) as [[[t project s level]|msg]|];
    cbn in H1, H2; try discriminate;
    injection H1 as <-; injection H2 as <-;
    cbn [timestamp report_data].
  - split; [reflexivity|].
    split; [apply markdown_report_around_timestamp|].
    destruct (html_report_around_timestamp
                assessment_file assessment_file t t project project s level)
      as [Hkw Hhtml].
    split; [exact Hkw|]. split; [exact Hhtml|]. reflexivity.
  - split; [reflexivity|].
    split; [apply markdown_report_around_timestamp|].
    destruct (html_report_around_timestamp
                assessment_file assessment_file
                (utcnow1 +:+ "Z") (utcnow2 +:+ "Z")
                "gunj-operator" "gunj-operator"
                (mkScores 0 0 0 0 0 0 0) "0 - Traditional")
      as [Hkw Hhtml].
    split; [exact Hkw|]. split; [exact Hhtml|]. intros Hnone. by destruct Hnone.
Qed.

Lemma two_runs_differ_in_the_timestamp_alone_witness :
  exists after : string,
    generate_markdown_report
      (mkGenerator "maturity-assessment-report.json"
         (mkReportData "2024-05-01T12:00:00Z" "gunj-operator"
            (mkScores 0 0 0 0 0 0 0) "0 - Traditional")) =
      Ok (markdown_heading +:+ "2024-05-01T12:00:00Z" +:+ after) /\
    generate_markdown_report
      (mkGenerator "maturity-assessment-report.json"
         (mkReportData "2025-01-01T00:00:00Z" "gunj-operator"
            (mkScores 0 0 0 0 0 0 0) "0 - Traditional")) =
      Ok (markdown_heading +:+ "2025-01-01T00:00:00Z" +:+ after).
Proof.
  destruct (two_runs_differ_in_the_timestamp_alone
              Sample.empty_directory "maturity-assessment-report.json"
              "2024-05-01T12:00:00" "2025-01-01T00:00:00" _ _
              eq_refl eq_refl) as (_ & [Hmd|(e & He & _)] & _).
  - exact Hmd.
  - discriminate He.
Defined.

End MaturityDocuments.

(** ** Further properties of [scripts/generate-security-dashboard.py] *)

Section SecurityBehaviour.
Import Py Security Spec Behaviour.

(** *** Counting in general *)

Lemma recognised_cons_count (vuln : Vulnerability) :
  (if decide (severity_key vuln = "critical") then 1 else 0) +
  (if decide (severity_key vuln = "high") then 1 else 0) +
  (if decide (severity_key vuln = "medium") then 1 else 0) +
  (if decide (severity_key vuln = "low") then 1 else 0) =
  if recognised vuln then 1 else 0.
Proof.
  unfold recognised, tier_names. cbn [existsb].
  generalize (severity_key vuln). intros k.
  repeat case_decide; subst; try discriminate; cbn; try reflexivity.
  repeat match goal with
         | H : k <> _ |- _ => apply String.eqb_neq in H; rewrite H; clear H
         end.
  reflexivity.
Qed.

Lemma tier_counts_add_up (l : list Vulnerability) :
  count_in "critical" l + count_in "high" l +
  count_in "medium" l + count_in "low" l =
  Z.of_nat (length (List.filter recognised l)).
Proof.
  induction l as [|vuln l IH].
  - reflexivity.
  - rewrite !count_in_cons. cbn [List.filter].
    pose proof (recognised_cons_count vuln) as Hv.
    destruct (recognised vuln); cbn [length]; lia.
Qed.

Lemma tiers_lookup_other (a b c d : Z) (k : string) :
  ~ In k tier_names -> tiers a b c d !! k = None.
Proof.
  unfold tier_names. cbn [In]. intros Hk. unfold tiers.
  rewrite !lookup_insert_ne by (intros <-; apply Hk; auto 10).
  apply lookup_empty.
Qed.

Lemma filter_length_le {A} (f : A -> bool) (l : list A) :
  (length (List.filter f l) <= length l)%nat.
Proof.
  induction l as [|x l IH]; cbn; [lia|]. destruct (f x); cbn; lia.
Qed.

Lemma filter_length_all {A} (f : A -> bool) (l : list A) :
  length (List.filter f l) = length l <-> forall x, In x l -> f x = true.
Proof.
  induction l as [|x l IH]; cbn.
  - split; [intros _ x []|reflexivity].
  - pose proof (filter_length_le f l) as Hle.
    destruct (f x) eqn:Hx; cbn.
    + split.
      * intros Hlen y [<-|Hy]; [exact Hx|]. apply IH; [lia|exact Hy].
      * intros Hall. f_equal. apply IH. intros y Hy. apply Hall. by right.
    + split; [lia|]. intros Hall. specialize (Hall x (or_introl eq_refl)).
      congruence.
Qed.

(** X9.  For any Trivy data, each of the four counters is the number
    of entries whose lowercased severity (LOW when the key is absent)
    is that tier, and no other key is ever added; so the total of the
    dashboard is the number of entries with a recognised severity: at
    most the number of entries, and equal to it exactly when every
    entry is recognised. *)
Theorem counters_count_recognised_entries
    (timestamp : datetime) (st : state) (trivy_data : TrivyData) :
  trivy_results_json (fs st) = Some (JSON trivy_data) ->
  exists (st' : state) (metrics : Metrics),
    collect_vulnerability_metrics timestamp st = (st', Ok metrics) /\
    (forall tier, In tier tier_names ->
       vulnerabilities metrics !! tier =
         Some (count_in tier (all_entries trivy_data))) /\
    (forall key, ~ In key tier_names -> vulnerabilities metrics !! key = None) /\
    dashboard_total_vulns (results st') =
      Z.of_nat (length (List.filter recognised (all_entries trivy_data))) /\
    dashboard_total_vulns (results st')
      <= Z.of_nat (length (all_entries trivy_data)) /\
    (dashboard_total_vulns (results st')
       = Z.of_nat (length (all_entries trivy_data)) <->
     forall vuln, In vuln (all_entries trivy_data) -> recognised vuln = true).
Proof.
  intros Hfile.
  pose proof (collect_with_trivy timestamp st trivy_data Hfile) as Hrun.
  eexists _, _. split; [exact Hrun|].
  set (l := all_entries trivy_data).
  assert (Htotal : dashboard_total_vulns
            (results (store_metrics (metrics_of timestamp l) st)) =
            Z.of_nat (length (List.filter recognised l))).
  { unfold dashboard_total_vulns, vulnerability_counts.
    cbn [store_metrics results results_vulnerabilities fmap option_fmap
         option_map default from_option id metrics_of vulnerabilities].
    rewrite sum_values_tiers. apply tier_counts_add_up. }
  split.
  { intros tier Htier. cbn [metrics_of vulnerabilities].
    destruct (tiers_lookup (count_in "critical" l) (count_in "high" l)
                (count_in "medium" l) (count_in "low" l)) as (Hc & Hh & Hm & Hl).
    unfold tier_names in Htier. cbn [In] in Htier.
    destruct Htier as [<-|[<-|[<-|[<-|[]]]]]; assumption. }
  split.
  { intros key Hkey. cbn [metrics_of vulnerabilities].
    by apply tiers_lookup_other. }
  rewrite Htotal.
  split; [reflexivity|].
  pose proof (filter_length_le recognised l) as Hle.
  split; [lia|].
  rewrite <- filter_length_all. lia.
Qed.

Lemma counters_count_recognised_entries_witness :
  exists (st' : state) (metrics : Metrics),
    collect_vulnerability_metrics Sample.now
      (Sample.fresh (mkDisk None (Some (JSON Sample.unknown_scan))))
      = (st', Ok metrics) /\
    dashboard_total_vulns (results st') = 1.
Proof.
  destruct (counters_count_recognised_entries Sample.now
              (Sample.fresh (mkDisk None (Some (JSON Sample.unknown_scan))))
              Sample.unknown_scan eq_refl)
    as (st' & metrics & Hrun & _ & _ & Htotal & _).
  exists st', metrics. split; [exact Hrun|]. rewrite Htotal. reflexivity.
Defined.

(** X10.  The counters do not depend on the order of the entries or
    on how they are spread over scan results: two Trivy files with the
    same entries up to permutation give the same metrics. *)
Theorem counters_ignore_order
    (timestamp : datetime) (st1 st2 : state) (trivy1 trivy2 : TrivyData) :
  trivy_results_json (fs st1) = Some (JSON trivy1) ->
  trivy_results_json (fs st2) = Some (JSON trivy2) ->
  all_entries trivy1 ≡ₚ all_entries trivy2 ->
  exists metrics : Metrics,
    snd (collect_vulnerability_metrics timestamp st1) = Ok metrics /\
    snd (collect_vulnerability_metrics timestamp st2) = Ok metrics.
Proof.
  intros H1 H2 Hperm.
  rewrite (collect_with_trivy _ _ _ H1), (collect_with_trivy _ _ _ H2).
  exists (metrics_of timestamp (all_entries trivy1)).
  split; [reflexivity|]. cbn [snd]. f_equal.
  unfold metrics_of, count_in. by rewrite Hperm.
Qed.

Lemma counters_ignore_order_witness :
  exists metrics : Metrics,
    snd (collect_vulnerability_metrics Sample.now
           (Sample.fresh (mkDisk None (Some (JSON Sample.critical_and_low_scan)))))
      = Ok metrics /\
    snd (collect_vulnerability_metrics Sample.now
           (Sample.fresh (mkDisk None (Some (JSON
              (mkTrivyData (Some [ mkScanResult (Some [Sample.low; Sample.critical]) ])))))))
      = Ok metrics.
Proof.
  apply (counters_ignore_order Sample.now
           (Sample.fresh (mkDisk None (Some (JSON Sample.critical_and_low_scan))))
           (Sample.fresh (mkDisk None (Some (JSON
              (mkTrivyData (Some [ mkScanResult (Some [Sample.low; Sample.critical]) ]))))))
           _ _ eq_refl eq_refl).
  apply Permutation_swap.
Defined.

(** *** Empty inputs *)

Lemma all_entries_without_vulnerabilities (trivy_data : TrivyData) :
  (forall result, In result (default [] (Results trivy_data)) ->
     default [] (Vulnerabilities result) = []) ->
  all_entries trivy_data = [].
Proof.
  unfold all_entries. generalize (default [] (Results trivy_data)).
  intros results Hall. induction results as [|result results IH].
  - reflexivity.
  - cbn [map concat]. rewrite (Hall result) by (by left).
    apply IH. intros r Hr. apply Hall. by right.
Qed.

(** X11.  Nothing to count is not an error: when the Trivy file is
    missing, has no [Results] key, or holds only scan results without
    vulnerabilities (the key absent or the list empty), the collection
    returns the four counters at zero and the total is 0. *)
Theorem nothing_to_count (timestamp : datetime) (st : state) :
  (trivy_results_json (fs st) = None \/
   exists trivy_data,
     trivy_results_json (fs st) = Some (JSON trivy_data) /\
     (Results trivy_data = None \/
      forall result, In result (default [] (Results trivy_data)) ->
        Vulnerabilities result = None \/ Vulnerabilities result = Some [])) ->
  exists (st' : state) (metrics : Metrics),
    collect_vulnerability_metrics timestamp st = (st', Ok metrics) /\
    vulnerabilities metrics = tiers 0 0 0 0 /\
    dashboard_total_vulns (results st') = 0.
Proof.
  intros Hempty.
  assert (Hzero : exists st' : state,
    collect_vulnerability_metrics timestamp st =
      (st', Ok (metrics_of timestamp [])) /\
    st' = store_metrics (metrics_of timestamp []) st).
  { destruct Hempty as [Hnone|(trivy_data & Hfile & Hnothing)].
    - rewrite (collect_without_trivy _ _ Hnone). eauto.
    - rewrite (collect_with_trivy _ _ _ Hfile).
      assert (Hentries : all_entries trivy_data = []).
      { apply all_entries_without_vulnerabilities.
        destruct Hnothing as [Hresults|Hresults].
        - rewrite Hresults. intros result [].
        - intros result Hin. by destruct (Hresults result Hin) as [-> | ->]. }
      rewrite Hentries. eauto. }
  destruct Hzero as (st' & Hrun & ->).
  eexists _, _. split; [exact Hrun|]. split; [reflexivity|].
  unfold dashboard_total_vulns, vulnerability_counts.
  cbn [store_metrics results results_vulnerabilities fmap option_fmap
       option_map default from_option id metrics_of vulnerabilities].
  change (count_in _ []) with 0. apply sum_values_tiers.
Qed.

Lemma nothing_to_count_witness :
  exists (st' : state) (metrics : Metrics),
    collect_vulnerability_metrics Sample.now (Sample.fresh Sample.no_files)
      = (st', Ok metrics) /\
    vulnerabilities metrics = tiers 0 0 0 0 /\
    dashboard_total_vulns (results st') = 0.
Proof.
  apply (nothing_to_count Sample.now (Sample.fresh Sample.no_files)).
  left. reflexivity.
Defined.

(** *** What a step leaves alone *)

Lemma collect_outcome (timestamp : datetime) (st st' : state) (metrics : Metrics) :
  collect_vulnerability_metrics timestamp st = (st', Ok metrics) ->
  st' = store_metrics metrics st /\
  collect_vulnerability_metrics timestamp (store_metrics metrics st) =
    (store_metrics metrics st, Ok metrics).
Proof.
  intros Hrun.
  destruct (trivy_results_json (fs st)) as [[trivy_data|msg]|] eqn:Hfile.
  - rewrite (collect_with_trivy _ _ _ Hfile) in Hrun.
    injection Hrun as <- <-. split; [reflexivity|].
    by rewrite (collect_with_trivy _ (store_metrics _ st) _ Hfile).
  - rewrite (collect_malformed_trivy _ _ _ Hfile) in Hrun. discriminate.
  - rewrite (collect_without_trivy _ _ Hfile) in Hrun.
    injection Hrun as <- <-. split; [reflexivity|].
    by rewrite (collect_without_trivy _ (store_metrics _ st) Hfile).
Qed.

(** X12.  The collection starts from zero each time: collecting again
    over the same files returns the same metrics and leaves the same
    state, nothing is accumulated.  It changes the [vulnerabilities]
    entry of the results and nothing else: the assessment and
    compliance entries, the files, what was printed and what was
    written stay as they were. *)
Theorem collection_starts_from_zero
    (timestamp : datetime) (st st' : state) (metrics : Metrics) :
  collect_vulnerability_metrics timestamp st = (st', Ok metrics) ->
  collect_vulnerability_metrics timestamp st' = (st', Ok metrics) /\
  results_vulnerabilities (results st') = Some metrics /\
  results_assessment (results st') = results_assessment (results st) /\
  results_compliance (results st') = results_compliance (results st) /\
  fs st' = fs st /\ stdout st' = stdout st /\ written st' = written st.
Proof.
  intros Hrun. destruct (collect_outcome _ _ _ _ Hrun) as [-> Hagain].
  split; [exact Hagain|]. repeat split.
Qed.

Lemma collection_starts_from_zero_witness :
  collect_vulnerability_metrics Sample.now
    (store_metrics (metrics_of Sample.now [])
       (Sample.fresh Sample.no_files)) =
    (store_metrics (metrics_of Sample.now []) (Sample.fresh Sample.no_files),
     Ok (metrics_of Sample.now [])).
Proof.
  apply (collection_starts_from_zero Sample.now (Sample.fresh Sample.no_files)).
  reflexivity.
Defined.

(** X13.  [run_security_assessment] never raises an exception that
    derives from [Exception]: what it raises is what the subprocess
    call raised, of a class outside [Exception].  When it returns, it
    returns the results it has stored.  Either way it prints
    [Running security assessment...] first, writes no file, and leaves
    the [vulnerabilities] and [compliance] entries alone. *)
Theorem assessment_step_discipline
    (script : disk -> run_outcome) (st st' : state) (r : result ResultsDict) :
  run_security_assessment script st = (st', r) ->
  (forall e, r = Raise e ->
     is_Exception (exn_cls e) = false /\ script (fs st) = Failed e (fs st')) /\
  (forall res, r = Ok res -> res = results st') /\
  (exists more, stdout st' =
     stdout st ++ "Running security assessment..." :: more) /\
  written st' = written st /\
  results_vulnerabilities (results st') = results_vulnerabilities (results st) /\
  results_compliance (results st') = results_compliance (results st).
Proof.
  intros Hrun.
  destruct (script (fs st)) as [returncode after|e after] eqn:Hscript.
  - rewrite (run_security_assessment_completed _ _ _ _ Hscript) in Hrun.
    destruct (security_assessment_report_json after) as [[doc|msg]|];
      injection Hrun as <- <-;
      (split; [intros e [=]|]);
      (split; [intros res [= <-]; reflexivity|]);
      (split; [eexists; reflexivity|]);
      repeat split.
  - destruct (is_Exception (exn_cls e)) eqn:Hcls.
    + rewrite (run_security_assessment_caught _ _ _ _ Hscript Hcls) in Hrun.
      injection Hrun as <- <-.
      split; [intros e' [=]|].
      split; [intros res [= <-]; reflexivity|].
      split; [eexists; reflexivity|]. repeat split.
    + rewrite (run_security_assessment_uncaught _ _ _ _ Hscript Hcls) in Hrun.
      injection Hrun as <- <-.
      split; [intros e' [= <-]; split; [exact Hcls|reflexivity]|].
      split; [intros res [=]|].
      split; [eexists; reflexivity|]. repeat split.
Qed.

Lemma assessment_step_discipline_witness :
  written (fst (run_security_assessment Sample.cannot_start
                  (Sample.fresh Sample.no_files))) = [].
Proof.
  exact (proj1 (proj2 (proj2 (proj2
    (assessment_step_discipline Sample.cannot_start
       (Sample.fresh Sample.no_files) _ _ eq_refl))))).
Defined.

(** *** What a run reports and how it ends *)

(** X14.  On a generator that holds no assessment yet, the security
    score that the dashboard and the metrics snapshot read after
    [run_security_assessment] is the percentage of the report the
    script left, and 0 in every other case: when the call raised and
    the default record was stored, when the report is not valid JSON,
    and when there is no report and no record is stored at all. *)
Theorem reported_score_after_assessment
    (script : disk -> run_outcome) (st st' : state) (res : ResultsDict) :
  results_assessment (results st) = None ->
  run_security_assessment script st = (st', Ok res) ->
  reported_security_score res =
    match script (fs st) with
    | Completed _ after =>
        match security_assessment_report_json after with
        | Some (JSON doc) => percentage_of doc
        | _ => 0
        end
    | Failed _ _ => 0
    end.
Proof.
  intros Hfresh Hrun.
  assert (Hdefault : forall r,
    reported_security_score (store_assessment default_assessment r) = 0).
  { intros r. vm_compute. reflexivity. }
  destruct (script (fs st)) as [returncode after|e after] eqn:Hscript.
  - rewrite (run_security_assessment_completed _ _ _ _ Hscript) in Hrun.
    destruct (security_assessment_report_json after) as [[doc|msg]|];
      injection Hrun as <- <-.
    + reflexivity.
    + apply Hdefault.
    + unfold reported_security_score, assessment_summary.
      rewrite Hfresh. reflexivity.
  - destruct (is_Exception (exn_cls e)) eqn:Hcls.
    + rewrite (run_security_assessment_caught _ _ _ _ Hscript Hcls) in Hrun.
      injection Hrun as <- <-. apply Hdefault.
    + rewrite (run_security_assessment_uncaught _ _ _ _ Hscript Hcls) in Hrun.
      discriminate.
Qed.

Lemma reported_score_after_assessment_witness :
  exists res : ResultsDict,
    snd (run_security_assessment (Sample.exits_with 1)
           (Sample.fresh Sample.valid_report)) = Ok res /\
    reported_security_score res = 72.
Proof.
  eexists. split; [reflexivity|].
  exact (reported_score_after_assessment (Sample.exits_with 1)
           (Sample.fresh Sample.valid_report) _ _ eq_refl eq_refl).
Defined.


End SecurityBehaviour.
